(** * SmartNixieTube: state model and command-frame encoding

    A shallow embedding of [smartnixietube/SmartNixieTube.py].

    Python objects are mutated in place; here every method is a computation
    in a small state-and-exception monad over the object it mutates, so that
    the state left behind by a raising call is still visible.  Integers are
    [Z], the two decimal-point flags are [bool], and a Python [str] is a
    [string]. *)

From Stdlib Require Import ZArith Bool Ascii String DecimalString Lia.
From Stdlib Require Import Floats.PrimFloat Floats.SpecFloat Floats.FloatOps.
From Stdlib Require DecimalPos.
From stdpp Require Import base list strings.

Local Open Scope string_scope.
Local Open Scope list_scope.
Local Open Scope Z_scope.

(** ** Python run-time: exceptions, the monad, and the built-ins used *)

Module Py.

(** The exception classes the module raises, each with its message. *)
Inductive exn : Type :=
| ValueError (msg : string)
| TypeError (msg : string)
| IndexError (msg : string)
| OverflowError (msg : string)
| AssertionError (msg : string)
| AttributeError (msg : string)
| ConnectionError (msg : string)
| SerialException (msg : string).

(** [str(e)] of an exception that carries a single message. *)
Definition str_exn (e : exn) : string :=
  match e with
  | ValueError m | TypeError m | IndexError m | OverflowError m
  | AssertionError m | AttributeError m | ConnectionError m
  | SerialException m => m
  end.

Inductive result (A : Type) : Type :=
| Ok (a : A)
| Raise (e : exn).
Arguments Ok {A} a.
Arguments Raise {A} e.

(** A method of an object of type [St]: it returns or raises, and leaves
    the object in a new state either way. *)
Definition M (St A : Type) : Type := St -> result A * St.

Definition ret {St A} (a : A) : M St A := fun s => (Ok a, s).
Definition raise {St A} (e : exn) : M St A := fun s => (Raise e, s).
Definition bind {St A B} (m : M St A) (k : A -> M St B) : M St B :=
  fun s => match m s with
           | (Ok a, s') => k a s'
           | (Raise e, s') => (Raise e, s')
           end.
Definition get {St} : M St St := fun s => (Ok s, s).
Definition modify {St} (f : St -> St) : M St unit := fun s => (Ok tt, f s).

(** [try: m except Exception as e: raise h(e)] *)
Definition try_except {St A} (m : M St A) (h : exn -> exn) : M St A :=
  fun s => match m s with
           | (Ok a, s') => (Ok a, s')
           | (Raise e, s') => (Raise (h e), s')
           end.

(** [for i in range(n): body(i)], left at the first exception. *)
Fixpoint for_range_from {St} (i : nat) (n : nat) (body : nat -> M St unit)
  : M St unit :=
  match n with
  | O => ret tt
  | S n' => bind (body i) (fun _ => for_range_from (S i) n' body)
  end.
Definition for_range {St} (n : nat) (body : nat -> M St unit) : M St unit :=
  for_range_from 0 n body.

(** [sub in s] on two strings: [sub] occurs contiguously in [s]. *)
Fixpoint startswith (s sub : string) {struct sub} : bool :=
  match sub, s with
  | EmptyString, _ => true
  | String a sub', String b s' => Ascii.eqb a b && startswith s' sub'
  | String _ _, EmptyString => false
  end.

Fixpoint str_in (sub s : string) : bool :=
  startswith s sub ||
  match s with
  | EmptyString => false
  | String _ s' => str_in sub s'
  end.

(** [str(n)] of an integer: decimal, ["-"] in front of a negative one. *)
Definition str (n : Z) : string := NilZero.string_of_int (Z.to_int n).

(** [c * n] for a one-character string. *)
Fixpoint repeat_char (c : ascii) (n : nat) : string :=
  match n with
  | O => EmptyString
  | S n' => String c (repeat_char c n')
  end.

(** [s.zfill(width)]: zeros go after a leading sign. *)
Definition zfill (s : string) (width : Z) : string :=
  let fill := repeat_char "0" (Z.to_nat (width - Z.of_nat (String.length s))) in
  match s with
  | String c rest =>
      if Ascii.eqb c "+" || Ascii.eqb c "-"
      then String c (fill +:+ rest)
      else fill +:+ s
  | EmptyString => fill
  end.

(** ['%03d' % n]: at least three characters, zero-filled, the sign of a
    negative number counted in the width. *)
Definition format_03d (n : Z) : string := zfill (str n) 3.

(** [int(x)] of a float: truncation toward zero. *)
Definition int_of_float (x : float) : result Z :=
  match Prim2SF x with
  | S754_zero _ => Ok 0
  | S754_infinity _ =>
      Raise (OverflowError "cannot convert float infinity to integer")
  | S754_nan => Raise (ValueError "cannot convert float NaN to integer")
  | S754_finite neg m e =>
      let a := Z.shiftl (Z.pos m) e in
      Ok (if neg then - a else a)
  end.

End Py.
Import Py.

(** stdpp's monad notations ([x ← m; k] and [m;; k]) for [M St]. *)
Global Instance M_ret {St} : MRet (M St) := fun A => @ret St A.
Global Instance M_bind {St} : MBind (M St) := fun A B k m => @bind St A B m k.

(** ** [class SmartNixieTube]: one tube *)

Module SmartNixieTube.

Record t : Type := mk {
  digit : string;
  left_decimal_point : bool;
  right_decimal_point : bool;
  brightness : Z;
  red : Z;
  green : Z;
  blue : Z
}.

Definition with_digit (v : string) (u : t) : t :=
  mk v (left_decimal_point u) (right_decimal_point u)
     (brightness u) (red u) (green u) (blue u).
Definition with_left_decimal_point (v : bool) (u : t) : t :=
  mk (digit u) v (right_decimal_point u)
     (brightness u) (red u) (green u) (blue u).
Definition with_right_decimal_point (v : bool) (u : t) : t :=
  mk (digit u) (left_decimal_point u) v
     (brightness u) (red u) (green u) (blue u).
Definition with_brightness (v : Z) (u : t) : t :=
  mk (digit u) (left_decimal_point u) (right_decimal_point u)
     v (red u) (green u) (blue u).
Definition with_red (v : Z) (u : t) : t :=
  mk (digit u) (left_decimal_point u) (right_decimal_point u)
     (brightness u) v (green u) (blue u).
Definition with_green (v : Z) (u : t) : t :=
  mk (digit u) (left_decimal_point u) (right_decimal_point u)
     (brightness u) (red u) v (blue u).
Definition with_blue (v : Z) (u : t) : t :=
  mk (digit u) (left_decimal_point u) (right_decimal_point u)
     (brightness u) (red u) (green u) v.

(** [@digit.setter]: the test is [value not in '-0123456789'], the
    substring test of two strings. *)
Definition set_digit (value : string) : M t unit :=
  if negb (str_in value "-0123456789")
  then modify (with_digit "-")
  else modify (with_digit value).

(** [@left_decimal_point.setter] and [@right_decimal_point.setter]: the
    [TypeError] branch is taken by a value whose type is not [bool], which
    the argument type excludes here. *)
Definition set_left_decimal_point (value : bool) : M t unit :=
  modify (with_left_decimal_point value).
Definition set_right_decimal_point (value : bool) : M t unit :=
  modify (with_right_decimal_point value).

Definition set_brightness (value : Z) : M t unit :=
  if (value <? 0) || (value >? 255)
  then raise (ValueError "Brightness must be between 0-255")
  else modify (with_brightness value).

Definition set_red (value : Z) : M t unit :=
  if (value <? 0) || (value >? 255)
  then raise (ValueError "Red must be between 0-255")
  else modify (with_red value).

Definition set_blue (value : Z) : M t unit :=
  if (value <? 0) || (value >? 255)
  then raise (ValueError "Blue must be between 0-255")
  else modify (with_blue value).

Definition set_green (value : Z) : M t unit :=
  if (value <? 0) || (value >? 255)
  then raise (ValueError "Green must be between 0-255")
  else modify (with_green value).

Definition turn_off : M t unit :=
  set_digit "-" ;;
  set_left_decimal_point false ;;
  set_right_decimal_point false ;;
  set_brightness 0 ;;
  set_red 0 ;;
  set_green 0 ;;
  set_blue 0.

Definition convert_digit_to_string_with_leading_zeros (number : Z) : string :=
  format_03d number.

Definition convert_from_bool_to_yn (boolean : bool) : string :=
  if boolean then "Y" else "N".

Definition generate_command_string (u : t) : string :=
  "$" +:+
  digit u +:+ "," +:+
  convert_from_bool_to_yn (left_decimal_point u) +:+ "," +:+
  convert_from_bool_to_yn (right_decimal_point u) +:+ "," +:+
  convert_digit_to_string_with_leading_zeros (brightness u) +:+ "," +:+
  convert_digit_to_string_with_leading_zeros (red u) +:+ "," +:+
  convert_digit_to_string_with_leading_zeros (green u) +:+ "," +:+
  convert_digit_to_string_with_leading_zeros (blue u).

(** The object [__init__] starts from has no attribute yet; the seven
    assignments of [__init__] go through the setters, which never read the
    attribute they write, so the start value below is never observed. *)
Definition unset : t := mk "" false false 0 0 0 0.

(** [__init__(digit='-', *, left_decimal_point=False, ...)]: the object
    exists only if no setter raised. *)
Definition init (digit0 : string) (ldp rdp : bool)
    (brightness0 red0 green0 blue0 : Z) : result t :=
  match (set_digit digit0 ;;
         set_left_decimal_point ldp ;;
         set_right_decimal_point rdp ;;
         set_brightness brightness0 ;;
         set_red red0 ;;
         set_green green0 ;;
         set_blue blue0) unset with
  | (Ok _, u) => Ok u
  | (Raise e, _) => Raise e
  end.

(** [SmartNixieTube()] with every default. *)
Definition default : t := mk "-" false false 0 0 0 0.

End SmartNixieTube.

(** ** The serial port ([serial.Serial] of pyserial), as the display uses it

    The port is an external collaborator: the display only needs the
    operations below, each of which may raise. *)

Class SerialPort (P : Type) : Type := {
  (** [serial.Serial(port=name, baudrate=115200, ...)] *)
  serial_open : string -> result P;
  isOpen : P -> bool;
  flushOutput : M P unit;
  flushInput : M P unit;
  flush : M P unit;
  write : string -> M P unit;
  close : M P unit
}.

(** ** [class SmartNixieTubeDisplay]: the chain of tubes *)

Module SmartNixieTubeDisplay.

Record t (P : Type) : Type := mk {
  number_of_tubes_in_display : Z;
  tubes : list SmartNixieTube.t;
  brightness : Z;
  red : Z;
  green : Z;
  blue : Z;
  serial_port_name : string;
  (** [None]: the attribute [port] has not been assigned. *)
  port : option P
}.
Arguments mk {P}.
Arguments number_of_tubes_in_display {P}.
Arguments tubes {P}.
Arguments brightness {P}.
Arguments red {P}.
Arguments green {P}.
Arguments blue {P}.
Arguments serial_port_name {P}.
Arguments port {P}.

Section Methods.
Context {P : Type} `{SerialPort P}.

(** [math.log10] on an integer, a binary64 value computed by the
    platform's C library. *)
Variable log10 : Z -> float.

Definition with_number_of_tubes_in_display (v : Z) (d : t P) : t P :=
  mk v (tubes d) (brightness d) (red d) (green d) (blue d)
     (serial_port_name d) (port d).
Definition with_tubes (v : list SmartNixieTube.t) (d : t P) : t P :=
  mk (number_of_tubes_in_display d) v (brightness d) (red d) (green d)
     (blue d) (serial_port_name d) (port d).
Definition with_brightness (v : Z) (d : t P) : t P :=
  mk (number_of_tubes_in_display d) (tubes d) v (red d) (green d)
     (blue d) (serial_port_name d) (port d).
Definition with_red (v : Z) (d : t P) : t P :=
  mk (number_of_tubes_in_display d) (tubes d) (brightness d) v (green d)
     (blue d) (serial_port_name d) (port d).
Definition with_green (v : Z) (d : t P) : t P :=
  mk (number_of_tubes_in_display d) (tubes d) (brightness d) (red d) v
     (blue d) (serial_port_name d) (port d).
Definition with_blue (v : Z) (d : t P) : t P :=
  mk (number_of_tubes_in_display d) (tubes d) (brightness d) (red d)
     (green d) v (serial_port_name d) (port d).
Definition with_serial_port_name (v : string) (d : t P) : t P :=
  mk (number_of_tubes_in_display d) (tubes d) (brightness d) (red d)
     (green d) (blue d) v (port d).
Definition with_port (v : option P) (d : t P) : t P :=
  mk (number_of_tubes_in_display d) (tubes d) (brightness d) (red d)
     (green d) (blue d) (serial_port_name d) v.

(** A method call on [self.tubes[i]]. *)
Definition at_tube {A} (i : nat) (m : M SmartNixieTube.t A) : M (t P) A :=
  fun d =>
    match tubes d !! i with
    | None => (Raise (IndexError "list index out of range"), d)
    | Some u =>
        let '(r, u') := m u in (r, with_tubes (<[i := u']> (tubes d)) d)
    end.

(** A method call on [self.port]. *)
Definition at_port {A} (m : M P A) : M (t P) A :=
  fun d =>
    match port d with
    | None =>
        (Raise (AttributeError "object has no attribute 'port'"), d)
    | Some p => let '(r, p') := m p in (r, with_port (Some p') d)
    end.

(** [for tube in self.tubes: body]; the counter [i] is the position of
    [tube], which [set_display_number] keeps by hand. *)
Definition for_tube (body : nat -> M SmartNixieTube.t unit) : M (t P) unit :=
  d ← get;
  for_range (length (tubes d)) (fun i => at_tube i (body i)).

Definition set_serial_port_name (value : string) : M (t P) unit :=
  modify (with_serial_port_name value).

Definition set_number_of_tubes_in_display (value : Z) : M (t P) unit :=
  if value <? 1
  then raise (ValueError "number_of_tubes_in_display must be greater than 0")
  else modify (with_number_of_tubes_in_display value).

Definition set_brightness (value : Z) : M (t P) unit :=
  if (value <? 0) || (value >? 255)
  then raise (ValueError "Brightness must be between 0-255")
  else
    modify (with_brightness value) ;;
    d ← get;
    for_range (Z.to_nat (number_of_tubes_in_display d)) (fun i =>
      d ← get; at_tube i (SmartNixieTube.set_brightness (brightness d))).

Definition set_red (value : Z) : M (t P) unit :=
  if (value <? 0) || (value >? 255)
  then raise (ValueError "Red must be between 0-255")
  else
    modify (with_red value) ;;
    d ← get;
    for_range (Z.to_nat (number_of_tubes_in_display d)) (fun i =>
      d ← get; at_tube i (SmartNixieTube.set_red (red d))).

Definition set_blue (value : Z) : M (t P) unit :=
  if (value <? 0) || (value >? 255)
  then raise (ValueError "Blue must be between 0-255")
  else
    modify (with_blue value) ;;
    d ← get;
    for_range (Z.to_nat (number_of_tubes_in_display d)) (fun i =>
      d ← get; at_tube i (SmartNixieTube.set_blue (blue d))).

Definition set_green (value : Z) : M (t P) unit :=
  if (value <? 0) || (value >? 255)
  then raise (ValueError "Green must be between 0-255")
  else
    modify (with_green value) ;;
    d ← get;
    for_range (Z.to_nat (number_of_tubes_in_display d)) (fun i =>
      d ← get; at_tube i (SmartNixieTube.set_green (green d))).

Definition reset : M (t P) unit :=
  for_tube (fun _ =>
    SmartNixieTube.set_digit "-" ;;
    SmartNixieTube.set_brightness 0 ;;
    SmartNixieTube.set_red 0 ;;
    SmartNixieTube.set_green 0 ;;
    SmartNixieTube.set_blue 0).

(** Each tube's string is put in front of what has been collected. *)
Definition generate_command_string (d : t P) : string :=
  let command_string :=
    fold_left
      (fun command_string tube =>
         SmartNixieTube.generate_command_string tube +:+ command_string)
      (tubes d) "" in
  command_string +:+ "!".

(** The loop both accepting branches of [set_display_number] run. *)
Definition assign_digits (display_number : string) : M (t P) unit :=
  for_tube (fun i u =>
    match String.get i display_number with
    | Some c => SmartNixieTube.set_digit (String c EmptyString) u
    | None => (Raise (IndexError "string index out of range"), u)
    end).

Definition set_display_number (number : Z) : M (t P) unit :=
  if number <? 0
  then raise (ValueError "Display number must be positive")
  else if number =? 0
  then
    d ← get;
    assign_digits (zfill (str number) (number_of_tubes_in_display d))
  else
    d ← get;
    match int_of_float (log10 number) with
    | Raise e => raise e
    | Ok k =>
        if k + 1 >? number_of_tubes_in_display d
        then raise (ValueError "Not enough tubes to display all digits")
        else assign_digits
               (zfill (str number) (number_of_tubes_in_display d))
    end.

(** [str.encode()] of an ASCII string is the same characters as bytes;
    [time.sleep(0.1)] changes nothing that is modelled. *)
Definition send_command : M (t P) unit :=
  d ← get;
  match port d with
  | None => raise (AttributeError "object has no attribute 'port'")
  | Some p =>
      if isOpen p
      then
        try_except
          (at_port flushOutput ;;
           at_port flushInput ;;
           at_port flush ;;
           d ← get;
           at_port (write (generate_command_string d)))
          (fun e => ConnectionError (str_exn e))
      else ret tt
  end.

(** The object [__init__] starts from: no attribute assigned. *)
Definition unset : t P := mk 0 [] 0 0 0 0 "" None.

(** [__init__(number_of_tubes_in_display, serial_port_name='', *,
    brightness=0, red=0, green=0, blue=0)] *)
Definition init (number : Z) (name : string)
    (brightness0 red0 green0 blue0 : Z) : result (t P) :=
  match (set_number_of_tubes_in_display number ;;
         modify (with_tubes []) ;;
         d ← get;
         for_range (Z.to_nat (number_of_tubes_in_display d)) (fun _ =>
           modify (fun d => with_tubes (tubes d ++ [SmartNixieTube.default]) d)) ;;
         set_brightness brightness0 ;;
         set_red red0 ;;
         set_green green0 ;;
         set_blue blue0 ;;
         set_serial_port_name name ;;
         if negb (String.eqb name "")
         then
           match serial_open name with
           | Ok p => modify (with_port (Some p))
           | Raise _ =>
               raise (AssertionError ("Error opening serial port " +:+ name))
           end
         else raise (AssertionError "No serial port specified")) unset with
  | (Ok _, d) => Ok d
  | (Raise e, _) => Raise e
  end.

(** [__del__]: whatever is raised on the way is dropped. *)
Definition del : M (t P) unit :=
  fun d =>
    match (reset ;; send_command ;; at_port close) d with
    | (_, d') => (Ok tt, d')
    end.

End Methods.

End SmartNixieTubeDisplay.

Import SmartNixieTubeDisplay.

(** ** What the specification says, in its own words

    Section 4.1: [encode_fragment] is the seven fields
    [DIGIT,LDP,RDP,BRIGHTNESS,RED,GREEN,BLUE] without a leading ["$"];
    section 4.2: the frame is
    ["$" + fragment(U[n-1]) + ... + "$" + fragment(U[0]) + "!"]. *)

Module Spec.

Definition encode_fragment (u : SmartNixieTube.t) : string :=
  SmartNixieTube.digit u +:+ "," +:+
  SmartNixieTube.convert_from_bool_to_yn (SmartNixieTube.left_decimal_point u)
    +:+ "," +:+
  SmartNixieTube.convert_from_bool_to_yn (SmartNixieTube.right_decimal_point u)
    +:+ "," +:+
  format_03d (SmartNixieTube.brightness u) +:+ "," +:+
  format_03d (SmartNixieTube.red u) +:+ "," +:+
  format_03d (SmartNixieTube.green u) +:+ "," +:+
  format_03d (SmartNixieTube.blue u).

(** The fragments of [us] in the order given, each after a ["$"]. *)
Fixpoint fragments (us : list SmartNixieTube.t) : string :=
  match us with
  | [] => ""
  | u :: us' => "$" +:+ encode_fragment u +:+ fragments us'
  end.

Definition encode_frame (units : list SmartNixieTube.t) : string :=
  fragments (rev units) +:+ "!".

End Spec.

(** ** Well-formed displays and legal tubes *)

(** The display owns exactly as many tubes as it says. *)
Definition consistent {P} (d : SmartNixieTubeDisplay.t P) : Prop :=
  number_of_tubes_in_display d = Z.of_nat (length (tubes d)).

(** The characters a digit may be, by the comment in the digit setter. *)
Definition digit_chars : list ascii := list_ascii_of_string "0123456789-".

Definition byte_range (v : Z) : Prop := 0 <= v <= 255.

(** The characters of a decimal numeral. *)
Definition decimal (c : ascii) : Prop :=
  c ∈ list_ascii_of_string "0123456789".

(** What a bulk setter that succeeded has done: the display-level value
    and the same field of every tube are [v], and no tube was added or
    dropped. *)
Definition overwritten {P} (display_field : SmartNixieTubeDisplay.t P -> Z)
    (tube_field : SmartNixieTube.t -> Z) (v : Z)
    (d : SmartNixieTubeDisplay.t P)
    (r : result unit * SmartNixieTubeDisplay.t P) : Prop :=
  fst r = Ok tt /\
  display_field (snd r) = v /\
  Forall (fun u => tube_field u = v) (tubes (snd r)) /\
  length (tubes (snd r)) = length (tubes d).

(** The legal ranges of section 3 of the specification. *)
Definition legal (u : SmartNixieTube.t) : Prop :=
  (exists c, c ∈ digit_chars /\ SmartNixieTube.digit u = String c "") /\
  byte_range (SmartNixieTube.brightness u) /\
  byte_range (SmartNixieTube.red u) /\
  byte_range (SmartNixieTube.green u) /\
  byte_range (SmartNixieTube.blue u).

(** What the setters do maintain: the digit passed the substring test. *)
Definition stored (u : SmartNixieTube.t) : Prop :=
  str_in (SmartNixieTube.digit u) "-0123456789" = true /\
  byte_range (SmartNixieTube.brightness u) /\
  byte_range (SmartNixieTube.red u) /\
  byte_range (SmartNixieTube.green u) /\
  byte_range (SmartNixieTube.blue u).

(** ** A serial line that records what is written to it

    An instance of the port interface to run the display on: a closed port
    refuses every operation, an open one appends each write to [sent]. *)

Module Wire.

Record t : Type := mk { opened : bool; sent : list string }.

Definition checked {A} (m : M t A) : M t A :=
  fun p =>
    if opened p then m p
    else (Raise (SerialException "Attempting to use a port that is not open"), p).

Definition record (data : string) : M t unit :=
  modify (fun p => mk (opened p) (sent p ++ [data])).

Definition shut : M t unit := modify (fun p => mk false (sent p)).

End Wire.

Global Instance wire_port : SerialPort Wire.t := {
  serial_open _ := Ok (Wire.mk true []);
  isOpen := Wire.opened;
  flushOutput := Wire.checked (ret tt);
  flushInput := Wire.checked (ret tt);
  flush := Wire.checked (ret tt);
  write data := Wire.checked (Wire.record data);
  close := Wire.shut
}.

(** A machine with no serial device: opening fails, and there is never a
    port to call. *)
Global Instance no_device : SerialPort unit := {
  serial_open name := Raise (SerialException ("could not open port " +:+ name));
  isOpen _ := false;
  flushOutput := raise (SerialException "Attempting to use a port that is not open");
  flushInput := raise (SerialException "Attempting to use a port that is not open");
  flush := raise (SerialException "Attempting to use a port that is not open");
  write _ := raise (SerialException "Attempting to use a port that is not open");
  close := ret tt
}.

(** Values of [math.log10] (CPython on x86-64 Linux) at the integers used
    in the examples below; elsewhere the table answers [nan]. *)
Definition log10_table (n : Z) : float :=
  if n =? 42 then 0x1.9f8d43f783a1fp+0%float            (* 1.6232492903979006 *)
  else if n =? 999 then 0x1.7ff1c30d1207fp+1%float      (* 2.9995654882259823 *)
  else if n =? 1000 then 3%float
  else if n =? 999999999999997 then 0x1.dffffffffffffp+3%float (* 14.999999999999998 *)
  else if n =? 999999999999998 then 15%float
  else if n =? 999999999999999 then 15%float
  else nan.

(** A display of [n] default tubes on an open line. *)
Definition fresh (n : nat) : SmartNixieTubeDisplay.t Wire.t :=
  SmartNixieTubeDisplay.mk (Z.of_nat n) (replicate n SmartNixieTube.default)
    0 0 0 0 "COM1" (Some (Wire.mk true [])).

(** A field in 0..255 is printed as exactly three decimal digits. *)
Definition three_digits (v : Z) : bool :=
  match format_03d v with
  | String a (String b (String c EmptyString)) =>
      match Ascii.is_nat a, Ascii.is_nat b, Ascii.is_nat c with
      | Some x, Some y, Some z => Z.of_nat (100 * x + 10 * y + z) =? v
      | _, _, _ => false
      end
  | _ => false
  end.

(** ** The public interface as a set of calls

    What a client can do with a tube, and with a display once it is
    constructed.  The setter of [number_of_tubes_in_display] is left out:
    [reachable] is about displays whose count is not reassigned. *)

Inductive tube_call : Type :=
| SetDigit (value : string)
| SetLeftDecimalPoint (value : bool)
| SetRightDecimalPoint (value : bool)
| SetBrightness (value : Z)
| SetRed (value : Z)
| SetGreen (value : Z)
| SetBlue (value : Z)
| TurnOff.

Definition tube_run (c : tube_call) : M SmartNixieTube.t unit :=
  match c with
  | SetDigit v => SmartNixieTube.set_digit v
  | SetLeftDecimalPoint v => SmartNixieTube.set_left_decimal_point v
  | SetRightDecimalPoint v => SmartNixieTube.set_right_decimal_point v
  | SetBrightness v => SmartNixieTube.set_brightness v
  | SetRed v => SmartNixieTube.set_red v
  | SetGreen v => SmartNixieTube.set_green v
  | SetBlue v => SmartNixieTube.set_blue v
  | TurnOff => SmartNixieTube.turn_off
  end.

Inductive display_call : Type :=
| Brightness (value : Z)
| Red (value : Z)
| Green (value : Z)
| Blue (value : Z)
| Reset
| DisplayNumber (number : Z)
| SendCommand
| Tube (i : nat) (c : tube_call).

Definition display_run {P} `{SerialPort P} (log10 : Z -> float)
    (c : display_call) : M (SmartNixieTubeDisplay.t P) unit :=
  match c with
  | Brightness v => SmartNixieTubeDisplay.set_brightness v
  | Red v => SmartNixieTubeDisplay.set_red v
  | Green v => SmartNixieTubeDisplay.set_green v
  | Blue v => SmartNixieTubeDisplay.set_blue v
  | Reset => SmartNixieTubeDisplay.reset
  | DisplayNumber n => set_display_number log10 n
  | SendCommand => send_command
  | Tube i c => at_tube i (tube_run c)
  end.

(** The displays a client can get: constructed, then driven by calls,
    whether they return or raise. *)
Inductive reachable {P} `{SerialPort P} (log10 : Z -> float)
  : SmartNixieTubeDisplay.t P -> Prop :=
| reach_init number name brightness0 red0 green0 blue0 d :
    SmartNixieTubeDisplay.init number name brightness0 red0 green0 blue0 = Ok d ->
    reachable log10 d
| reach_call c d :
    reachable log10 d -> reachable log10 (snd (display_run log10 c d)).

(** A method keeps a property of the object, returning or raising. *)
Definition preserves {St A} (Inv : St -> Prop) (m : M St A) : Prop :=
  forall s, Inv s -> Inv (snd (m s)).

(** What every reachable display satisfies. *)
Definition sound {P} (d : SmartNixieTubeDisplay.t P) : Prop :=
  1 <= number_of_tubes_in_display d /\ consistent d /\ Forall stored (tubes d).


(** ** Reading a display back

    What an observer of the tubes sees, to state what the operations
    achieve. *)

(** What [reset] makes of one tube: the decimal points stay. *)
Definition blanked (u : SmartNixieTube.t) : SmartNixieTube.t :=
  SmartNixieTube.mk "-" (SmartNixieTube.left_decimal_point u)
    (SmartNixieTube.right_decimal_point u) 0 0 0 0.


(** The number a string of decimal digits denotes, leading zeros allowed. *)
Definition read_decimal (s : string) : option Z :=
  option_map Z.of_uint (NilEmpty.uint_of_string s).

(** The tube the constructor builds from arguments it accepts. *)
Definition constructed (digit0 : string) (ldp rdp : bool)
    (brightness0 red0 green0 blue0 : Z) : SmartNixieTube.t :=
  SmartNixieTube.mk (if str_in digit0 "-0123456789" then digit0 else "-")
    ldp rdp brightness0 red0 green0 blue0.

(** ** Characters

    A Python [str] is modelled by its bytes.  A character is then one byte,
    or the bytes of a multi-byte UTF-8 sequence, every one of which is 128
    or more. *)
Definition one_character (value : string) : Prop :=
  (exists c, value = String c "") \/
  (value <> "" /\
   Forall (fun b => (128 <= nat_of_ascii b)%nat) (list_ascii_of_string value)).

(** One of the eleven characters a digit may be. *)
Definition digit_character (value : string) : Prop :=
  exists c, c ∈ digit_chars /\ value = String c "".

(** * Theorems *)

Example str_examples :
  str 0 = "0" /\ str 42 = "42" /\ str (-7) = "-7" /\
  format_03d 5 = "005" /\ format_03d 255 = "255" /\ format_03d 1000 = "1000" /\
  format_03d (-5) = "-05" /\ zfill "42" 3 = "042" /\ zfill "-5" 4 = "-005".
Proof. repeat split; reflexivity. Qed.

Example str_in_examples :
  str_in "" "-0123456789" = true /\ str_in "01" "-0123456789" = true /\
  str_in "10" "-0123456789" = false /\ str_in "a" "-0123456789" = false.
Proof. repeat split; reflexivity. Qed.

Example int_of_float_examples :
  int_of_float 15%float = Ok 15 /\
  int_of_float 0x1.dffffffffffffp+3%float = Ok 14 /\
  int_of_float 0x1.9f8d43f783a1fp+0%float = Ok 1 /\
  int_of_float (-2.5)%float = Ok (-2).
Proof. repeat split; reflexivity. Qed.

Example default_tube :
  SmartNixieTube.init "-" false false 0 0 0 0 = Ok SmartNixieTube.default.
Proof. reflexivity. Qed.

Example tube_command_string :
  SmartNixieTube.generate_command_string
    (SmartNixieTube.mk "5" false false 128 0 0 255) = "$5,N,N,128,000,000,255".
Proof. reflexivity. Qed.

Example fresh_display :
  SmartNixieTubeDisplay.init (P := Wire.t) 3 "COM1" 0 0 0 0 = Ok (fresh 3).
Proof. reflexivity. Qed.

Example no_port_named :
  SmartNixieTubeDisplay.init (P := Wire.t) 3 "" 0 0 0 0
  = Raise (AssertionError "No serial port specified").
Proof. reflexivity. Qed.

(** ** Strings *)

Lemma append_cons (x : ascii) (a b : string) :
  String x a +:+ b = String x (a +:+ b).
Proof. reflexivity. Qed.

Lemma append_assoc (a b c : string) : (a +:+ b) +:+ c = a +:+ b +:+ c.
Proof.
  induction a as [|x a IH]; [reflexivity|].
  now rewrite !append_cons, IH.
Qed.

Lemma append_empty_r (a : string) : a +:+ "" = a.
Proof.
  induction a as [|x a IH]; [reflexivity|].
  now rewrite append_cons, IH.
Qed.

Lemma fragments_app (us vs : list SmartNixieTube.t) :
  Spec.fragments (us ++ vs) = Spec.fragments us +:+ Spec.fragments vs.
Proof.
  induction us as [|u us IH]; cbn [Spec.fragments app]; [reflexivity|].
  now rewrite IH, !append_assoc.
Qed.

(** The unit's own string is the fragment of the specification with the
    ["$"] already in front. *)
Lemma tube_string_fragment (u : SmartNixieTube.t) :
  SmartNixieTube.generate_command_string u = "$" +:+ Spec.encode_fragment u.
Proof. reflexivity. Qed.

Lemma collected_fragments (us : list SmartNixieTube.t) (acc : string) :
  fold_left
    (fun command_string tube =>
       SmartNixieTube.generate_command_string tube +:+ command_string)
    us acc
  = Spec.fragments (rev us) +:+ acc.
Proof.
  revert acc; induction us as [|u us IH]; intros acc; simpl fold_left.
  - reflexivity.
  - rewrite IH. simpl rev. rewrite fragments_app, append_assoc.
    do 2 f_equal. change (Spec.fragments [u])
      with (("$" +:+ Spec.encode_fragment u) +:+ "").
    now rewrite append_empty_r.
Qed.

(** C1: the frame of a display is ["$" + fragment(U[n-1]) + ... + "$" +
    fragment(U[0]) + "!"]: one fragment per unit, the last unit's first,
    each after a ["$"], nothing in between, one ["!"] at the end. *)
Theorem frame_is_reversed_fragments {P} `{SerialPort P}
    (d : SmartNixieTubeDisplay.t P) :
  SmartNixieTubeDisplay.generate_command_string d = Spec.encode_frame (tubes d).
Proof.
  unfold SmartNixieTubeDisplay.generate_command_string, Spec.encode_frame.
  now rewrite collected_fragments, append_empty_r.
Qed.

Example frame_of_two :
  SmartNixieTubeDisplay.generate_command_string (P := Wire.t)
    (SmartNixieTubeDisplay.mk 2
       [SmartNixieTube.mk "5" false false 128 0 0 255; SmartNixieTube.default]
       0 0 0 0 "COM1" (Some (Wire.mk true [])))
  = "$-,N,N,000,000,000,000$5,N,N,128,000,000,255!".
Proof. reflexivity. Qed.

(** ** The unit's command string *)

Lemma format_03d_byte (v : Z) : byte_range v -> three_digits v = true.
Proof.
  intros [Hlo Hhi].
  assert (Hall : forallb three_digits (map Z.of_nat (seq 0 256)) = true)
    by (vm_compute; reflexivity).
  rewrite forallb_forall in Hall. apply Hall.
  apply in_map_iff. exists (Z.to_nat v). split; [lia|].
  apply in_seq. lia.
Qed.

Lemma turn_off_result (u : SmartNixieTube.t) :
  SmartNixieTube.turn_off u = (Ok tt, SmartNixieTube.default).
Proof. reflexivity. Qed.

(** C2, as the code has it: the unit's string is ["$"] followed by the seven
    comma-separated fields DIGIT,LDP,RDP,BRIGHTNESS,RED,GREEN,BLUE, with
    nothing after the last field; the ["$"] is written by the unit, not by
    the display.  After [turn_off] the string is
    ["$-,N,N,000,000,000,000"]. *)
Theorem tube_string_starts_with_dollar (u : SmartNixieTube.t) :
  SmartNixieTube.generate_command_string u
  = "$" +:+ SmartNixieTube.digit u +:+ "," +:+
    (if SmartNixieTube.left_decimal_point u then "Y" else "N") +:+ "," +:+
    (if SmartNixieTube.right_decimal_point u then "Y" else "N") +:+ "," +:+
    format_03d (SmartNixieTube.brightness u) +:+ "," +:+
    format_03d (SmartNixieTube.red u) +:+ "," +:+
    format_03d (SmartNixieTube.green u) +:+ "," +:+
    format_03d (SmartNixieTube.blue u)
  /\ SmartNixieTube.generate_command_string u = "$" +:+ Spec.encode_fragment u
  /\ fst (SmartNixieTube.turn_off u) = Ok tt
  /\ SmartNixieTube.generate_command_string (snd (SmartNixieTube.turn_off u))
     = "$-,N,N,000,000,000,000".
Proof. repeat split. Qed.

(** C2 as written fails: after [turn_off] the unit's string is not
    ["-,N,N,000,000,000,000"], it has the ["$"] in front. *)
Lemma turned_off_string_is_not_bare :
  ~ (SmartNixieTube.generate_command_string
       (snd (SmartNixieTube.turn_off SmartNixieTube.default))
     = "-,N,N,000,000,000,000").
Proof. vm_compute. discriminate. Qed.

(** ** The digit setter *)

Lemma startswith_spec (sub s : string) :
  startswith s sub = true <-> exists post, s = sub +:+ post.
Proof.
  revert s; induction sub as [|a sub IH]; intros s.
  - split; [intros _; now exists s | reflexivity].
  - destruct s as [|b s]; cbn [startswith].
    + split; [discriminate | intros [post Hp]; discriminate Hp].
    + rewrite andb_true_iff, IH. split.
      * intros [Hab [post ->]]. apply Ascii.eqb_eq in Hab as ->. now exists post.
      * intros [post Hp]. rewrite append_cons in Hp. injection Hp as -> ->.
        split; [apply Ascii.eqb_refl | now exists post].
Qed.

(** [str_in] is the substring test. *)
Lemma str_in_spec (sub s : string) :
  str_in sub s = true <-> exists pre post, s = pre +:+ sub +:+ post.
Proof.
  induction s as [|b s IH]; cbn [str_in]; rewrite orb_true_iff, startswith_spec.
  - split.
    + intros [[post Hp] | Hf]; [now exists "", post | discriminate].
    + intros [pre [post Hp]]. left. destruct pre; [now exists post | discriminate].
  - rewrite IH. split.
    + intros [[post Hp] | [pre [post Hp]]].
      * now exists "", post.
      * exists (String b pre), post. now rewrite append_cons, Hp.
    + intros [pre [post Hp]]. destruct pre as [|x pre].
      * left. now exists post.
      * right. rewrite append_cons in Hp. injection Hp as _ ->. now exists pre, post.
Qed.

(** On a one-character string the substring test is membership in the
    eleven characters. *)
Lemma one_character_test (c : ascii) :
  str_in (String c "") "-0123456789" = bool_decide (c ∈ digit_chars).
Proof. destruct c as [[] [] [] [] [] [] [] []]; reflexivity. Qed.




(** C9 at a two-character digit: the constructor (and the setter) keep
    ["01"], which is not one of the single characters [0]..[9], [-]. *)
Theorem two_character_digit_is_kept :
  exists u,
    SmartNixieTube.init "01" false false 0 0 0 0 = Ok u /\
    SmartNixieTube.set_digit "01" SmartNixieTube.default = (Ok tt, u) /\
    SmartNixieTube.digit u = "01" /\
    ~ legal u.
Proof.
  exists (SmartNixieTube.mk "01" false false 0 0 0 0).
  split; [reflexivity | split; [reflexivity | split; [reflexivity|]]].
  intros [[c [_ Hc]] _]. discriminate Hc.
Qed.

(** ** Loops over the tubes *)

Section Loops.
Context {P : Type} `{SerialPort P}.
Implicit Types (d : SmartNixieTubeDisplay.t P) (u : SmartNixieTube.t).

Lemma with_tubes_twice (l l' : list SmartNixieTube.t) d :
  with_tubes l (with_tubes l' d) = with_tubes l d.
Proof. reflexivity. Qed.

Lemma with_tubes_same d : with_tubes (tubes d) d = d.
Proof. now destruct d. Qed.

Lemma bind_ok {St A B} (m : M St A) (k : A -> M St B) (s s' : St) (a : A) :
  m s = (Ok a, s') -> bind m k s = k a s'.
Proof. intros Hm. unfold bind. now rewrite Hm. Qed.

Lemma at_tube_ok {A} (i : nat) (m : M SmartNixieTube.t A) d u u' (r : result A) :
  tubes d !! i = Some u -> m u = (r, u') ->
  at_tube i m d = (r, with_tubes (<[i := u']> (tubes d)) d).
Proof. intros Hi Hm. unfold at_tube. now rewrite Hi, Hm. Qed.

(** A loop whose [j]-th turn replaces tube [j] by [f j] of it, on displays
    that satisfy [Inv], rewrites the tubes it runs over and no other. *)
Lemma for_range_from_tubes (Inv : SmartNixieTubeDisplay.t P -> Prop)
    (body : nat -> M (SmartNixieTubeDisplay.t P) unit)
    (f : nat -> SmartNixieTube.t -> SmartNixieTube.t) :
  (forall d j x, Inv d -> Inv (with_tubes (<[j := x]> (tubes d)) d)) ->
  (forall j d u, Inv d -> tubes d !! j = Some u ->
     body j d = (Ok tt, with_tubes (<[j := f j u]> (tubes d)) d)) ->
  forall mid pre post d,
    Inv d -> tubes d = pre ++ mid ++ post ->
    for_range_from (length pre) (length mid) body d
    = (Ok tt,
       with_tubes (pre ++ imap (fun k => f (length pre + k)%nat) mid ++ post) d).
Proof.
  intros Hinv Hbody mid.
  induction mid as [|u mid IH]; intros pre post d Hd Ht.
  - cbn in Ht |- *. unfold ret. rewrite <- Ht. now rewrite with_tubes_same.
  - cbn [length for_range_from].
    assert (Hu : tubes d !! length pre = Some u)
      by (rewrite Ht; apply list_lookup_middle; reflexivity).
    rewrite (bind_ok _ _ _ _ _ (Hbody _ _ _ Hd Hu)).
    set (d1 := with_tubes _ d).
    assert (Ht1 : tubes d1 = (pre ++ [f (length pre) u]) ++ mid ++ post).
    { unfold d1. cbn. rewrite Ht.
      rewrite (insert_app_r_alt pre) by reflexivity.
      rewrite Nat.sub_diag. cbn. now rewrite <- app_assoc. }
    specialize (IH (pre ++ [f (length pre) u]) post d1 (Hinv _ _ _ Hd) Ht1).
    rewrite length_app in IH. cbn [length] in IH.
    replace (length pre + 1)%nat with (S (length pre)) in IH by lia.
    rewrite IH. unfold d1. rewrite with_tubes_twice. do 2 f_equal.
    rewrite <- app_assoc. f_equal. cbn [app]. rewrite imap_cons.
    rewrite Nat.add_0_r. cbn [app]. do 2 f_equal.
    apply imap_ext. intros k x _. cbn. f_equal. lia.
Qed.

(** The same loop over all the tubes of the display. *)
Lemma for_range_all_tubes (Inv : SmartNixieTubeDisplay.t P -> Prop)
    (body : nat -> M (SmartNixieTubeDisplay.t P) unit)
    (f : nat -> SmartNixieTube.t -> SmartNixieTube.t) d :
  (forall d j x, Inv d -> Inv (with_tubes (<[j := x]> (tubes d)) d)) ->
  (forall j d u, Inv d -> tubes d !! j = Some u ->
     body j d = (Ok tt, with_tubes (<[j := f j u]> (tubes d)) d)) ->
  Inv d ->
  for_range (length (tubes d)) body d = (Ok tt, with_tubes (imap f (tubes d)) d).
Proof.
  intros Hinv Hbody Hd.
  pose proof (for_range_from_tubes Inv body f Hinv Hbody (tubes d) [] [] d Hd)
    as Hloop.
  rewrite app_nil_r in Hloop. specialize (Hloop eq_refl).
  cbn [length app] in Hloop. unfold for_range. rewrite Hloop.
  now rewrite app_nil_r.
Qed.

Lemma for_tube_pure (f : nat -> SmartNixieTube.t -> SmartNixieTube.t)
    (body : nat -> M SmartNixieTube.t unit) d :
  (forall j u, (j < length (tubes d))%nat -> body j u = (Ok tt, f j u)) ->
  for_tube body d = (Ok tt, with_tubes (imap f (tubes d)) d).
Proof.
  intros Hbody. unfold for_tube, mbind, M_bind.
  rewrite (bind_ok get _ d d d eq_refl).
  apply (for_range_all_tubes
           (fun d' => length (tubes d') = length (tubes d))).
  - intros d' j x Hd'. cbn. now rewrite length_insert.
  - intros j d' u Hd' Hj. apply (at_tube_ok _ _ _ u); [exact Hj|].
    apply Hbody. rewrite <- Hd'. now apply lookup_lt_Some in Hj.
  - reflexivity.
Qed.

End Loops.

(** ** Display-level operations *)

Section Display.
Context {P : Type} `{SerialPort P}.
Implicit Types (d : SmartNixieTubeDisplay.t P) (u : SmartNixieTube.t).

Lemma imap_ignore {A B} (f : A -> B) (l : list A) :
  imap (fun _ => f) l = f <$> l.
Proof. exact (imap_const f l). Qed.

Lemma reset_result d :
  SmartNixieTubeDisplay.reset d
  = (Ok tt,
     with_tubes
       ((fun u => SmartNixieTube.mk "-"
                    (SmartNixieTube.left_decimal_point u)
                    (SmartNixieTube.right_decimal_point u) 0 0 0 0)
          <$> tubes d) d).
Proof.
  unfold SmartNixieTubeDisplay.reset.
  rewrite (for_tube_pure
             (fun _ u => SmartNixieTube.mk "-"
                           (SmartNixieTube.left_decimal_point u)
                           (SmartNixieTube.right_decimal_point u) 0 0 0 0))
    by reflexivity.
  now rewrite imap_ignore.
Qed.

(** C7: [reset] sets every tube's digit to ["-"] and its brightness, red,
    green and blue to 0, and leaves both decimal points of every tube as
    they were. *)
Theorem reset_keeps_decimal_points d :
  exists d',
    SmartNixieTubeDisplay.reset d = (Ok tt, d') /\
    Forall2
      (fun u u' =>
         SmartNixieTube.digit u' = "-" /\
         SmartNixieTube.brightness u' = 0 /\
         SmartNixieTube.red u' = 0 /\
         SmartNixieTube.green u' = 0 /\
         SmartNixieTube.blue u' = 0 /\
         SmartNixieTube.left_decimal_point u'
           = SmartNixieTube.left_decimal_point u /\
         SmartNixieTube.right_decimal_point u'
           = SmartNixieTube.right_decimal_point u)
      (tubes d) (tubes d').
Proof.
  eexists. split; [apply reset_result|].
  cbn [tubes with_tubes]. apply Forall2_fmap_r, Forall_Forall2_diag, Forall_forall.
  intros u _. cbn. repeat split.
Qed.

Lemma byte_range_test (v : Z) :
  byte_range v <-> (v <? 0) || (v >? 255) = false.
Proof. unfold byte_range. rewrite orb_false_iff. lia. Qed.

Lemma consistent_range d :
  consistent d -> Z.to_nat (number_of_tubes_in_display d) = length (tubes d).
Proof. unfold consistent. intros ->. apply Nat2Z.id. Qed.

(** One proof for the four bulk setters: the field is stored, then written
    to tube 0, 1, ... in turn. *)
Ltac bulk_setter Hc Hv field upd :=
  apply byte_range_test in Hv;
  unfold mbind, M_bind; rewrite Hv;
  match goal with
  | |- bind (modify ?g) _ ?d = _ =>
      rewrite (bind_ok (modify g) _ d (g d) tt eq_refl);
      rewrite (bind_ok get _ (g d) (g d) (g d) eq_refl);
      replace (Z.to_nat (number_of_tubes_in_display (g d)))
        with (length (tubes (g d))) by (symmetry; apply (consistent_range d Hc));
      rewrite (for_range_all_tubes (fun d' => field d' = field (g d)) _
                 (fun _ : nat => upd) (g d));
      [ now rewrite imap_ignore
      | intros ? ? ? Hi; exact Hi
      | intros j d' u Hd' Hj;
        rewrite (bind_ok get _ d' d' d' eq_refl);
        apply (at_tube_ok _ _ _ u); [exact Hj|];
        rewrite Hd';
        cbn [brightness red green blue
             with_brightness with_red with_green with_blue];
        unfold SmartNixieTube.set_brightness, SmartNixieTube.set_red,
          SmartNixieTube.set_green, SmartNixieTube.set_blue;
        rewrite Hv; reflexivity
      | reflexivity ]
  end.

Lemma set_brightness_ok d v :
  consistent d -> byte_range v ->
  SmartNixieTubeDisplay.set_brightness v d
  = (Ok tt, with_tubes (SmartNixieTube.with_brightness v <$> tubes d)
              (with_brightness v d)).
Proof.
  intros Hc Hv. unfold SmartNixieTubeDisplay.set_brightness.
  bulk_setter Hc Hv (@brightness P) (SmartNixieTube.with_brightness v).
Qed.

Lemma set_red_ok d v :
  consistent d -> byte_range v ->
  SmartNixieTubeDisplay.set_red v d
  = (Ok tt, with_tubes (SmartNixieTube.with_red v <$> tubes d) (with_red v d)).
Proof.
  intros Hc Hv. unfold SmartNixieTubeDisplay.set_red.
  bulk_setter Hc Hv (@red P) (SmartNixieTube.with_red v).
Qed.

Lemma set_green_ok d v :
  consistent d -> byte_range v ->
  SmartNixieTubeDisplay.set_green v d
  = (Ok tt, with_tubes (SmartNixieTube.with_green v <$> tubes d)
              (with_green v d)).
Proof.
  intros Hc Hv. unfold SmartNixieTubeDisplay.set_green.
  bulk_setter Hc Hv (@green P) (SmartNixieTube.with_green v).
Qed.

Lemma set_blue_ok d v :
  consistent d -> byte_range v ->
  SmartNixieTubeDisplay.set_blue v d
  = (Ok tt, with_tubes (SmartNixieTube.with_blue v <$> tubes d) (with_blue v d)).
Proof.
  intros Hc Hv. unfold SmartNixieTubeDisplay.set_blue.
  bulk_setter Hc Hv (@blue P) (SmartNixieTube.with_blue v).
Qed.

End Display.

Section BulkSetters.
Context {P : Type} `{SerialPort P}.
Implicit Types (d : SmartNixieTubeDisplay.t P).

Lemma overwritten_fmap display_field tube_field v d d0
    (upd : SmartNixieTube.t -> SmartNixieTube.t) :
  (forall l, display_field (with_tubes l d0) = v) ->
  (forall u, tube_field (upd u) = v) ->
  overwritten display_field tube_field v d
    (Ok tt, with_tubes (upd <$> tubes d) d0).
Proof.
  intros Hd Hu. repeat split; cbn.
  - apply Hd.
  - apply Forall_fmap, Forall_forall. intros u _. apply Hu.
  - apply length_fmap.
Qed.

(** C6, as the code has it: on a display that owns as many tubes as
    [number_of_tubes_in_display] says, a bulk setter given [v] in 0..255
    stores [v] at display level and overwrites that field of every tube
    with [v]; on any display, given a [v] outside 0..255 it raises the
    out-of-range [ValueError] and changes nothing. *)
Theorem bulk_setters_overwrite_every_tube d (v : Z) :
  (consistent d -> byte_range v ->
   overwritten brightness SmartNixieTube.brightness v d
     (SmartNixieTubeDisplay.set_brightness v d) /\
   overwritten red SmartNixieTube.red v d
     (SmartNixieTubeDisplay.set_red v d) /\
   overwritten green SmartNixieTube.green v d
     (SmartNixieTubeDisplay.set_green v d) /\
   overwritten blue SmartNixieTube.blue v d
     (SmartNixieTubeDisplay.set_blue v d))
  /\
  (~ byte_range v ->
   SmartNixieTubeDisplay.set_brightness v d
     = (Raise (ValueError "Brightness must be between 0-255"), d) /\
   SmartNixieTubeDisplay.set_red v d
     = (Raise (ValueError "Red must be between 0-255"), d) /\
   SmartNixieTubeDisplay.set_green v d
     = (Raise (ValueError "Green must be between 0-255"), d) /\
   SmartNixieTubeDisplay.set_blue v d
     = (Raise (ValueError "Blue must be between 0-255"), d)).
Proof.
  split; [intros Hc Hv | intros Hv].
  - rewrite set_brightness_ok, set_red_ok, set_green_ok, set_blue_ok by assumption.
    split; [|split; [|split]]; apply overwritten_fmap; intros; reflexivity.
  - rewrite byte_range_test in Hv. apply not_false_is_true in Hv.
    unfold SmartNixieTubeDisplay.set_brightness, SmartNixieTubeDisplay.set_red,
      SmartNixieTubeDisplay.set_green, SmartNixieTubeDisplay.set_blue.
    rewrite Hv. repeat apply conj; reflexivity.
Qed.

End BulkSetters.

Lemma consistent_fresh (n : nat) : consistent (fresh n).
Proof. unfold consistent, fresh. cbn. now rewrite length_replicate. Qed.

Lemma bulk_setters_overwrite_every_tube_witness :
  consistent (fresh 3) /\ byte_range 128 /\ ~ byte_range 256 /\
  overwritten brightness SmartNixieTube.brightness 128 (fresh 3)
    (SmartNixieTubeDisplay.set_brightness 128 (fresh 3)) /\
  SmartNixieTubeDisplay.set_blue 256 (fresh 3)
    = (Raise (ValueError "Blue must be between 0-255"), fresh 3).
Proof.
  assert (Hc : consistent (fresh 3)) by (unfold consistent; reflexivity).
  assert (Hin : byte_range 128) by (unfold byte_range; lia).
  assert (Hout : ~ byte_range 256) by (unfold byte_range; lia).
  split; [exact Hc | split; [exact Hin | split; [exact Hout | split]]].
  - exact (proj1 (proj1 (bulk_setters_overwrite_every_tube (fresh 3) 128) Hc Hin)).
  - exact (proj2 (proj2 (proj2
             (proj2 (bulk_setters_overwrite_every_tube (fresh 3) 256) Hout)))).
Defined.

(** C6 as written fails: after the public setter of
    [number_of_tubes_in_display] has set the count of a display of three
    tubes to 2, the bulk setter of brightness given 9 returns and the third
    tube still has brightness 0. *)
Lemma bulk_setter_skips_tube_beyond_count :
  ~ overwritten brightness SmartNixieTube.brightness 9
      (snd (set_number_of_tubes_in_display 2 (fresh 3)))
      (SmartNixieTubeDisplay.set_brightness 9
         (snd (set_number_of_tubes_in_display 2 (fresh 3)))).
Proof.
  intros (_ & _ & Hall & _).
  apply (proj1 (Forall_lookup _ _)) with (i := 2%nat) (x := SmartNixieTube.default)
    in Hall; [discriminate Hall | reflexivity].
Qed.

Example bulk_brightness :
  tubes (snd (SmartNixieTubeDisplay.set_brightness 128 (fresh 2)))
  = [SmartNixieTube.mk "-" false false 128 0 0 0;
     SmartNixieTube.mk "-" false false 128 0 0 0].
Proof. reflexivity. Qed.

(** ** Sending *)

Section Send.
Context {P : Type} `{SerialPort P}.
Implicit Types (d : SmartNixieTubeDisplay.t P).

(** C3, as the code has it: on a display whose port is closed,
    [send_command] returns normally; it raises nothing, calls no port
    operation and leaves the display, its port included, as it was. *)
Theorem send_command_closed_port_returns d (p : P) :
  port d = Some p -> isOpen p = false ->
  SmartNixieTubeDisplay.send_command d = (Ok tt, d).
Proof.
  intros Hp Hclosed. unfold SmartNixieTubeDisplay.send_command, mbind, M_bind.
  rewrite (bind_ok get _ d d d eq_refl). now rewrite Hp, Hclosed.
Qed.

End Send.

(** A display of [n] default tubes whose line has been closed. *)
Lemma send_command_closed_port_returns_witness :
  port (with_port (Some (Wire.mk false [])) (fresh 2)) = Some (Wire.mk false [])
  /\ isOpen (Wire.mk false []) = false
  /\ SmartNixieTubeDisplay.send_command
       (with_port (Some (Wire.mk false [])) (fresh 2))
     = (Ok tt, with_port (Some (Wire.mk false [])) (fresh 2)).
Proof.
  split; [reflexivity | split; [reflexivity|]].
  exact (send_command_closed_port_returns
           (with_port (Some (Wire.mk false [])) (fresh 2)) (Wire.mk false [])
           eq_refl eq_refl).
Defined.

(** C3 as written fails: with the port closed, [send_command] raises no
    exception at all. *)
Lemma send_command_closed_port_does_not_raise :
  ~ (exists e,
       fst (SmartNixieTubeDisplay.send_command
              (with_port (Some (Wire.mk false [])) (fresh 2)))
       = Raise e).
Proof. intros [e He]. vm_compute in He. discriminate He. Qed.

Example send_command_open_port :
  SmartNixieTubeDisplay.send_command (fresh 2)
  = (Ok tt,
     with_port
       (Some (Wire.mk true ["$-,N,N,000,000,000,000$-,N,N,000,000,000,000!"]))
       (fresh 2)).
Proof. reflexivity. Qed.

(** ** Decimal strings *)

Lemma get_lookup (s : string) (i : nat) :
  String.get i s = list_ascii_of_string s !! i.
Proof.
  revert i; induction s as [|c s IH]; intros [|i]; cbn; try reflexivity.
  apply IH.
Qed.

Lemma length_list_ascii (s : string) :
  length (list_ascii_of_string s) = String.length s.
Proof. induction s as [|c s IH]; cbn; [reflexivity | now rewrite IH]. Qed.

Lemma list_ascii_append (a b : string) :
  list_ascii_of_string (a +:+ b)
  = list_ascii_of_string a ++ list_ascii_of_string b.
Proof.
  induction a as [|x a IH]; [reflexivity|].
  rewrite append_cons. cbn. now rewrite IH.
Qed.

Lemma list_ascii_repeat (c : ascii) (n : nat) :
  list_ascii_of_string (repeat_char c n) = replicate n c.
Proof. induction n as [|n IH]; cbn; [reflexivity | now rewrite IH]. Qed.

Lemma decimal_cases (c : ascii) :
  decimal c ->
  c = "0"%char \/ c = "1"%char \/ c = "2"%char \/ c = "3"%char \/
  c = "4"%char \/ c = "5"%char \/ c = "6"%char \/ c = "7"%char \/
  c = "8"%char \/ c = "9"%char.
Proof.
  unfold decimal. cbn. rewrite !elem_of_cons, elem_of_nil. tauto.
Qed.

Lemma uint_digits (d : Decimal.uint) :
  Forall decimal (list_ascii_of_string (NilEmpty.string_of_uint d)).
Proof.
  induction d; cbn; constructor; try assumption;
    unfold decimal; cbn; rewrite !elem_of_cons; tauto.
Qed.

Lemma uint_nonempty (d : Decimal.uint) :
  d <> Decimal.Nil -> NilEmpty.string_of_uint d <> "".
Proof. destruct d; cbn; congruence. Qed.

(** [str] of a natural number: digits only, at least one. *)
Lemma str_digits (n : Z) :
  0 <= n ->
  Forall decimal (list_ascii_of_string (str n)) /\ str n <> "".
Proof.
  intros Hn. unfold str. destruct n as [|p|p]; [| |lia].
  - split; [|discriminate]. cbn. constructor; [|constructor].
    unfold decimal; cbn; rewrite !elem_of_cons; tauto.
  - cbn [Z.to_int NilZero.string_of_int]. unfold NilZero.string_of_uint.
    destruct (Pos.to_uint p) eqn:Hp;
      try (rewrite <- Hp; split; [apply uint_digits | apply uint_nonempty; congruence]).
    split; [|discriminate]. cbn. constructor; [|constructor].
    unfold decimal; cbn; rewrite !elem_of_cons; tauto.
Qed.

(** [zfill] of a string of digits: zeros in front, up to the width. *)
Lemma zfill_digits (s : string) (width : Z) :
  Forall decimal (list_ascii_of_string s) -> s <> "" ->
  list_ascii_of_string (zfill s width)
  = replicate (Z.to_nat (width - Z.of_nat (String.length s))) "0"%char
    ++ list_ascii_of_string s.
Proof.
  intros Hs Hne. destruct s as [|c s]; [congruence|].
  unfold zfill. apply Forall_cons in Hs as [Hc _].
  assert (Hsign : Ascii.eqb c "+" || Ascii.eqb c "-" = false).
  { apply decimal_cases in Hc.
    repeat (destruct Hc as [-> | Hc]; [reflexivity|]). now subst c. }
  rewrite Hsign, list_ascii_append. now rewrite list_ascii_repeat.
Qed.

Lemma zfill_str (n width : Z) :
  0 <= n ->
  let cs := list_ascii_of_string (zfill (str n) width) in
  Forall decimal cs /\
  Z.of_nat (length cs) = Z.max width (Z.of_nat (String.length (str n))).
Proof.
  intros Hn cs. destruct (str_digits n Hn) as [Hd Hne].
  unfold cs. rewrite (zfill_digits _ _ Hd Hne). split.
  - apply Forall_app. split; [|exact Hd].
    apply Forall_replicate. unfold decimal; cbn; rewrite !elem_of_cons; tauto.
  - rewrite length_app, length_replicate, length_list_ascii. lia.
Qed.

(** A decimal digit passes the digit setter unchanged. *)
Lemma set_digit_decimal (c : ascii) (u : SmartNixieTube.t) :
  decimal c ->
  SmartNixieTube.set_digit (String c "") u
  = (Ok tt, SmartNixieTube.with_digit (String c "") u).
Proof.
  intros Hc. apply decimal_cases in Hc.
  repeat (destruct Hc as [-> | Hc]; [reflexivity|]). now subst c.
Qed.

(** ** [set_display_number] *)

Section Number.
Context {P : Type} `{SerialPort P}.
Variable log10 : Z -> float.
Implicit Types (d : SmartNixieTubeDisplay.t P) (u : SmartNixieTube.t).

Lemma imap_zip_digits (cs : list ascii) (l : list SmartNixieTube.t) :
  (length l <= length cs)%nat ->
  imap (fun i u => match cs !! i with
                   | Some c => SmartNixieTube.with_digit (String c "") u
                   | None => u
                   end) l
  = zip_with (fun c u => SmartNixieTube.with_digit (String c "") u) cs l.
Proof.
  revert cs; induction l as [|u l IH]; intros cs Hlen.
  - now destruct cs.
  - destruct cs as [|c cs]; [cbn in Hlen; lia|].
    rewrite imap_cons. cbn. f_equal. apply IH. cbn in Hlen. lia.
Qed.

(** With at least as many digits as tubes, the loop gives tube [i] the
    [i]-th character and changes nothing else. *)
Lemma assign_digits_ok (display_number : string) d :
  Forall decimal (list_ascii_of_string display_number) ->
  (length (tubes d) <= String.length display_number)%nat ->
  assign_digits display_number d
  = (Ok tt,
     with_tubes
       (zip_with (fun c u => SmartNixieTube.with_digit (String c "") u)
          (list_ascii_of_string display_number) (tubes d)) d).
Proof.
  intros Hdec Hlen. unfold assign_digits.
  rewrite (for_tube_pure
             (fun i u => match list_ascii_of_string display_number !! i with
                         | Some c => SmartNixieTube.with_digit (String c "") u
                         | None => u
                         end)).
  - rewrite imap_zip_digits; [reflexivity | now rewrite length_list_ascii].
  - intros j u Hj. rewrite get_lookup.
    destruct (list_ascii_of_string display_number !! j) as [c|] eqn:Hc.
    + apply set_digit_decimal.
      rewrite Forall_forall in Hdec. apply Hdec.
      apply list_elem_of_lookup. now exists j.
    + apply lookup_ge_None in Hc. rewrite length_list_ascii in Hc. lia.
Qed.

Lemma set_display_number_negative (number : Z) d :
  number < 0 ->
  set_display_number log10 number d
  = (Raise (ValueError "Display number must be positive"), d).
Proof.
  intros Hn. unfold set_display_number.
  now replace (number <? 0) with true by (symmetry; apply Z.ltb_lt; lia).
Qed.

(** The test that rejects a number is made on [int(log10(number)) + 1]. *)
Lemma set_display_number_rejected (number k : Z) d :
  0 < number ->
  int_of_float (log10 number) = Ok k ->
  number_of_tubes_in_display d < k + 1 ->
  set_display_number log10 number d
  = (Raise (ValueError "Not enough tubes to display all digits"), d).
Proof.
  intros Hn Hk Hlt. unfold set_display_number, mbind, M_bind.
  replace (number <? 0) with false by (symmetry; apply Z.ltb_ge; lia).
  replace (number =? 0) with false by (symmetry; apply Z.eqb_neq; lia).
  rewrite (bind_ok get _ d d d eq_refl), Hk.
  now replace (k + 1 >? number_of_tubes_in_display d) with true
    by (symmetry; apply Z.gtb_lt; lia).
Qed.

(** When the number is zero, or passes that test, the zero-filled decimal
    string is handed out from the first tube on: tube [i] gets character
    [i], the first tube the most significant digit. *)
Lemma set_display_number_accepted (number : Z) d :
  consistent d ->
  0 <= number ->
  (number = 0 \/
   exists k, int_of_float (log10 number) = Ok k /\
             k + 1 <= number_of_tubes_in_display d) ->
  let display_number :=
    list_ascii_of_string (zfill (str number) (number_of_tubes_in_display d)) in
  set_display_number log10 number d
  = (Ok tt,
     with_tubes
       (zip_with (fun c u => SmartNixieTube.with_digit (String c "") u)
          display_number (tubes d)) d)
  /\ ((String.length (str number) <= length (tubes d))%nat ->
      length display_number = length (tubes d)).
Proof.
  intros Hc Hn Hpass display_number.
  destruct (zfill_str number (number_of_tubes_in_display d) Hn) as [Hdec Hlen].
  fold display_number in Hdec, Hlen. unfold consistent in Hc.
  assert (Hfits : (length (tubes d)
                   <= String.length
                        (zfill (str number) (number_of_tubes_in_display d)))%nat)
    by (rewrite <- length_list_ascii; fold display_number; lia).
  split; [|intros Hshort; lia].
  unfold set_display_number, mbind, M_bind.
  replace (number <? 0) with false by (symmetry; apply Z.ltb_ge; lia).
  destruct Hpass as [-> | [k [Hk Hle]]].
  - cbn [Z.eqb]. rewrite (bind_ok get _ d d d eq_refl).
    now apply assign_digits_ok.
  - destruct (number =? 0) eqn:Hz;
      rewrite (bind_ok get _ d d d eq_refl).
    + now apply assign_digits_ok.
    + rewrite Hk.
      replace (k + 1 >? number_of_tubes_in_display d) with false
        by (symmetry; rewrite Z.gtb_ltb; apply Z.ltb_ge; lia).
      now apply assign_digits_ok.
Qed.

(** C4 at 999999999999999 on fifteen tubes: [math.log10] returns [15.0]
    there, so the number, whose decimal string has fifteen characters, is
    refused and no digit is assigned. *)
Theorem fifteen_nines_refused d :
  number_of_tubes_in_display d = 15 ->
  log10 999999999999999 = 15%float ->
  String.length (str 999999999999999) = 15%nat /\
  set_display_number log10 999999999999999 d
  = (Raise (ValueError "Not enough tubes to display all digits"), d).
Proof.
  intros Hd Hlog. split; [reflexivity|].
  apply (set_display_number_rejected _ 15); [lia | now rewrite Hlog | lia].
Qed.

(** C5 at 999999999999998 on fifteen tubes: the digit count, fifteen, does
    not exceed the number of tubes, and the call fails all the same with
    the error for too many digits. *)
Theorem digit_count_test_misfires d :
  number_of_tubes_in_display d = 15 ->
  log10 999999999999998 = 15%float ->
  ~ (number_of_tubes_in_display d
     < Z.of_nat (String.length (str 999999999999998))) /\
  fst (set_display_number log10 999999999999998 d)
  = Raise (ValueError "Not enough tubes to display all digits").
Proof.
  intros Hd Hlog. split.
  - rewrite Hd. vm_compute. discriminate.
  - rewrite (set_display_number_rejected _ 15);
      [reflexivity | lia | now rewrite Hlog | lia].
Qed.

End Number.

Lemma fifteen_nines_refused_witness :
  number_of_tubes_in_display (fresh 15) = 15 /\
  log10_table 999999999999999 = 15%float /\
  String.length (str 999999999999999) = 15%nat /\
  set_display_number log10_table 999999999999999 (fresh 15)
  = (Raise (ValueError "Not enough tubes to display all digits"), fresh 15).
Proof.
  split; [reflexivity | split; [reflexivity|]].
  exact (fifteen_nines_refused log10_table (fresh 15) eq_refl eq_refl).
Defined.

Lemma digit_count_test_misfires_witness :
  number_of_tubes_in_display (fresh 15) = 15 /\
  log10_table 999999999999998 = 15%float /\
  ~ (number_of_tubes_in_display (fresh 15)
     < Z.of_nat (String.length (str 999999999999998))) /\
  fst (set_display_number log10_table 999999999999998 (fresh 15))
  = Raise (ValueError "Not enough tubes to display all digits").
Proof.
  split; [reflexivity | split; [reflexivity|]].
  exact (digit_count_test_misfires log10_table (fresh 15) eq_refl eq_refl).
Defined.

(** Zero never reaches [math.log10]. *)
Example display_zero_on_three (log10 : Z -> float) :
  SmartNixieTube.digit
    <$> tubes (snd (set_display_number log10 0 (fresh 3)))
  = ["0"; "0"; "0"].
Proof. reflexivity. Qed.

Example display_42_on_three (log10 : Z -> float) :
  log10 42 = 0x1.9f8d43f783a1fp+0%float ->
  fst (set_display_number log10 42 (fresh 3)) = Ok tt /\
  SmartNixieTube.digit
    <$> tubes (snd (set_display_number log10 42 (fresh 3)))
  = ["0"; "4"; "2"].
Proof.
  intros Hlog.
  destruct (set_display_number_accepted log10 42 (fresh 3)) as [-> _].
  - apply consistent_fresh.
  - lia.
  - right. exists 1. rewrite Hlog. split; [reflexivity | cbn; lia].
  - split; reflexivity.
Qed.

Example display_1000_on_three (log10 : Z -> float) :
  log10 1000 = 3%float ->
  set_display_number log10 1000 (fresh 3)
  = (Raise (ValueError "Not enough tubes to display all digits"), fresh 3).
Proof.
  intros Hlog. apply (set_display_number_rejected _ _ 3);
    [lia | now rewrite Hlog | cbn; lia].
Qed.

Example display_minus_one (log10 : Z -> float) :
  set_display_number log10 (-1) (fresh 3)
  = (Raise (ValueError "Display number must be positive"), fresh 3).
Proof. reflexivity. Qed.

(** ** What the public interface maintains *)

Section Preservation.
Context {St : Type}.
Implicit Types (Inv : St -> Prop).

Lemma preserves_ret {A} Inv (a : A) : preserves Inv (ret a).
Proof. intros s Hs. exact Hs. Qed.

Lemma preserves_raise {A} Inv e : preserves Inv (@raise St A e).
Proof. intros s Hs. exact Hs. Qed.

Lemma preserves_get Inv : preserves Inv get.
Proof. intros s Hs. exact Hs. Qed.

Lemma preserves_modify Inv (f : St -> St) :
  (forall s, Inv s -> Inv (f s)) -> preserves Inv (modify f).
Proof. intros Hf s Hs. now apply Hf. Qed.

Lemma preserves_bind {A B} Inv (m : M St A) (k : A -> M St B) :
  preserves Inv m -> (forall a, preserves Inv (k a)) -> preserves Inv (bind m k).
Proof.
  intros Hm Hk s Hs. unfold bind. specialize (Hm s Hs).
  destruct (m s) as [[a|e] s']; cbn in Hm |- *; [now apply Hk | exact Hm].
Qed.

Lemma preserves_mbind {A B} Inv (m : M St A) (k : A -> M St B) :
  preserves Inv m -> (forall a, preserves Inv (k a)) -> preserves Inv (m ≫= k).
Proof. apply preserves_bind. Qed.

Lemma preserves_try_except {A} Inv (m : M St A) h :
  preserves Inv m -> preserves Inv (try_except m h).
Proof.
  intros Hm s Hs. unfold try_except. specialize (Hm s Hs).
  now destruct (m s) as [[a|e] s'].
Qed.

Lemma preserves_for_range_from Inv (body : nat -> M St unit) (n i : nat) :
  (forall j, preserves Inv (body j)) -> preserves Inv (for_range_from i n body).
Proof.
  intros Hbody. revert i; induction n as [|n IH]; intros i; cbn.
  - apply preserves_ret.
  - apply preserves_bind; [apply Hbody | intros _; apply IH].
Qed.

Lemma preserves_for_range Inv (body : nat -> M St unit) (n : nat) :
  (forall j, preserves Inv (body j)) -> preserves Inv (for_range n body).
Proof. apply preserves_for_range_from. Qed.

End Preservation.

Lemma str_in_minus : str_in "-" "-0123456789" = true.
Proof. reflexivity. Qed.

Lemma byte_range_0 : byte_range 0.
Proof. unfold byte_range. lia. Qed.

(** The ranges the setters do enforce imply [legal] only for a digit of
    one character. *)
Lemma legal_stored (u : SmartNixieTube.t) : legal u -> stored u.
Proof.
  intros [[c [Hc Hd]] Hrest]. split; [|exact Hrest]. rewrite Hd.
  unfold digit_chars in Hc. cbn in Hc. rewrite !elem_of_cons, elem_of_nil in Hc.
  repeat (destruct Hc as [-> | Hc]; [reflexivity|]). destruct Hc.
Qed.

Lemma tube_run_stored (c : tube_call) : preserves stored (tube_run c).
Proof.
  intros u (Hd & Hb & Hr & Hg & Hbl).
  assert (H0 := byte_range_0).
  destruct c as [v|v|v|v|v|v|v|]; cbn [tube_run];
    unfold SmartNixieTube.set_digit, SmartNixieTube.set_brightness,
      SmartNixieTube.set_red, SmartNixieTube.set_green, SmartNixieTube.set_blue;
    try (destruct ((v <? 0) || (v >? 255)) eqn:Hv;
         [|apply byte_range_test in Hv]);
    try (destruct (str_in v "-0123456789") eqn:Hs);
    unfold stored; cbn;
    first [ exact (conj Hd (conj Hb (conj Hr (conj Hg Hbl))))
          | exact (conj Hs (conj Hb (conj Hr (conj Hg Hbl))))
          | exact (conj eq_refl (conj Hb (conj Hr (conj Hg Hbl))))
          | exact (conj Hd (conj Hv (conj Hr (conj Hg Hbl))))
          | exact (conj Hd (conj Hb (conj Hv (conj Hg Hbl))))
          | exact (conj Hd (conj Hb (conj Hr (conj Hv Hbl))))
          | exact (conj Hd (conj Hb (conj Hr (conj Hg Hv))))
          | exact (conj eq_refl (conj H0 (conj H0 (conj H0 H0)))) ].
Qed.

(** A tube comes out of its constructor within the enforced ranges. *)
Lemma tube_init_stored digit0 ldp rdp brightness0 red0 green0 blue0 u :
  SmartNixieTube.init digit0 ldp rdp brightness0 red0 green0 blue0 = Ok u ->
  stored u.
Proof.
  unfold SmartNixieTube.init, mbind, M_bind, bind.
  unfold SmartNixieTube.set_digit, SmartNixieTube.set_brightness,
    SmartNixieTube.set_red, SmartNixieTube.set_green, SmartNixieTube.set_blue.
  destruct (str_in digit0 "-0123456789") eqn:Hd;
  destruct ((brightness0 <? 0) || (brightness0 >? 255)) eqn:Hb;
  destruct ((red0 <? 0) || (red0 >? 255)) eqn:Hr;
  destruct ((green0 <? 0) || (green0 >? 255)) eqn:Hg;
  destruct ((blue0 <? 0) || (blue0 >? 255)) eqn:Hbl;
  cbn; intros Hu; try discriminate Hu; injection Hu as <-;
  apply byte_range_test in Hb, Hr, Hg, Hbl;
  first [ exact (conj Hd (conj Hb (conj Hr (conj Hg Hbl))))
        | exact (conj eq_refl (conj Hb (conj Hr (conj Hg Hbl)))) ].
Qed.

Section Reachable.
Context {P : Type} `{SerialPort P}.
Variable log10 : Z -> float.
Implicit Types (d : SmartNixieTubeDisplay.t P) (u : SmartNixieTube.t).

Lemma at_tube_sound {A} (i : nat) (m : M SmartNixieTube.t A) :
  preserves stored m -> preserves sound (at_tube (P := P) i m).
Proof.
  intros Hm d (Hn & Hc & Hf). unfold at_tube.
  destruct (tubes d !! i) as [u|] eqn:Hi; [|now repeat split].
  pose proof (Hm u (proj1 (Forall_lookup _ _) Hf i u Hi)) as Hu.
  destruct (m u) as [r u']. cbn in Hu |- *. split; [exact Hn|]. split.
  - unfold consistent in *. cbn. now rewrite length_insert.
  - cbn. now apply Forall_insert.
Qed.

Lemma at_port_sound {A} (m : M P A) : preserves sound (at_port m).
Proof.
  intros d Hd. unfold at_port.
  destruct (port d) as [p|]; [|exact Hd]. now destruct (m p).
Qed.

Lemma for_tube_sound (body : nat -> M SmartNixieTube.t unit) :
  (forall i, preserves stored (body i)) -> preserves sound (for_tube (P := P) body).
Proof.
  intros Hbody. unfold for_tube. apply preserves_mbind; [apply preserves_get|].
  intros d. apply preserves_for_range. intros j. now apply at_tube_sound.
Qed.

Lemma display_field_sound (f : SmartNixieTubeDisplay.t P -> SmartNixieTubeDisplay.t P) :
  (forall d, number_of_tubes_in_display (f d) = number_of_tubes_in_display d) ->
  (forall d, tubes (f d) = tubes d) ->
  preserves sound (modify f).
Proof.
  intros Hn Ht d (H1 & Hc & Hf). unfold modify, sound, consistent. cbn.
  now rewrite Hn, Ht.
Qed.

Ltac keep_sound :=
  repeat first
    [ apply preserves_raise
    | apply preserves_get
    | apply preserves_ret
    | apply preserves_for_range; intros ?
    | apply preserves_try_except
    | apply at_port_sound
    | apply at_tube_sound
    | apply for_tube_sound; intros ?
    | apply display_field_sound; reflexivity
    | apply preserves_mbind; [|intros ?] ].

Lemma set_brightness_sound v : preserves sound (SmartNixieTubeDisplay.set_brightness (P := P) v).
Proof.
  unfold SmartNixieTubeDisplay.set_brightness.
  destruct ((v <? 0) || (v >? 255)); keep_sound.
  apply (tube_run_stored (SetBrightness _)).
Qed.

Lemma set_red_sound v : preserves sound (SmartNixieTubeDisplay.set_red (P := P) v).
Proof.
  unfold SmartNixieTubeDisplay.set_red.
  destruct ((v <? 0) || (v >? 255)); keep_sound.
  apply (tube_run_stored (SetRed _)).
Qed.

Lemma set_green_sound v : preserves sound (SmartNixieTubeDisplay.set_green (P := P) v).
Proof.
  unfold SmartNixieTubeDisplay.set_green.
  destruct ((v <? 0) || (v >? 255)); keep_sound.
  apply (tube_run_stored (SetGreen _)).
Qed.

Lemma set_blue_sound v : preserves sound (SmartNixieTubeDisplay.set_blue (P := P) v).
Proof.
  unfold SmartNixieTubeDisplay.set_blue.
  destruct ((v <? 0) || (v >? 255)); keep_sound.
  apply (tube_run_stored (SetBlue _)).
Qed.

Lemma reset_sound : preserves sound (SmartNixieTubeDisplay.reset (P := P)).
Proof.
  unfold SmartNixieTubeDisplay.reset. keep_sound.
  - apply (tube_run_stored (SetDigit _)).
  - apply (tube_run_stored (SetBrightness _)).
  - apply (tube_run_stored (SetRed _)).
  - apply (tube_run_stored (SetGreen _)).
  - apply (tube_run_stored (SetBlue _)).
Qed.

Lemma assign_digits_sound s : preserves sound (assign_digits (P := P) s).
Proof.
  unfold assign_digits. keep_sound. intros u Hu.
  destruct (String.get _ s) as [c|]; [|exact Hu].
  now apply (tube_run_stored (SetDigit _)).
Qed.

Lemma set_display_number_sound n :
  preserves sound (set_display_number (P := P) log10 n).
Proof.
  unfold set_display_number.
  destruct (n <? 0); [apply preserves_raise|].
  destruct (n =? 0).
  - apply preserves_mbind; [apply preserves_get | intros d].
    apply assign_digits_sound.
  - apply preserves_mbind; [apply preserves_get | intros d].
    destruct (int_of_float (log10 n)) as [k|e]; [|apply preserves_raise].
    destruct (k + 1 >? _); [apply preserves_raise | apply assign_digits_sound].
Qed.

Lemma send_command_sound : preserves sound (send_command (P := P)).
Proof.
  unfold send_command. keep_sound.
  match goal with |- context [port ?d] => destruct (port d) as [p|] end;
    [|keep_sound].
  destruct (isOpen p); keep_sound.
Qed.

Lemma display_run_sound (c : display_call) :
  preserves sound (display_run (P := P) log10 c).
Proof.
  destruct c; cbn [display_run].
  - apply set_brightness_sound.
  - apply set_red_sound.
  - apply set_green_sound.
  - apply set_blue_sound.
  - apply reset_sound.
  - apply set_display_number_sound.
  - apply send_command_sound.
  - apply at_tube_sound, tube_run_stored.
Qed.

Lemma append_default_loop (n i : nat) d :
  for_range_from i n
    (fun _ => modify (fun d => with_tubes (tubes d ++ [SmartNixieTube.default]) d)) d
  = (Ok tt, with_tubes (tubes d ++ replicate n SmartNixieTube.default) d).
Proof.
  revert i d; induction n as [|n IH]; intros i d; cbn [for_range_from].
  - cbn. now rewrite app_nil_r, with_tubes_same.
  - unfold bind at 1. cbn [modify]. rewrite IH. cbn.
    now rewrite <- app_assoc.
Qed.

Lemma default_stored : stored SmartNixieTube.default.
Proof. apply (tube_init_stored "-" false false 0 0 0 0). reflexivity. Qed.

(** A display comes out of its constructor with as many tubes as asked
    for, at least one, all within the enforced ranges. *)
Lemma init_sound number name brightness0 red0 green0 blue0 d :
  SmartNixieTubeDisplay.init number name brightness0 red0 green0 blue0 = Ok d ->
  sound d.
Proof.
  unfold SmartNixieTubeDisplay.init, set_number_of_tubes_in_display,
    mbind at 1 2 3 4, M_bind.
  destruct (number <? 1) eqn:Hnum; [discriminate|]. apply Z.ltb_ge in Hnum.
  unfold bind at 1 2 3. cbn [modify get].
  unfold for_range, bind at 1. rewrite append_default_loop.
  match goal with
  | |- match ?rest ?d1 with _ => _ end = _ -> _ =>
      assert (Hrest : sound (snd (rest d1)));
      [|destruct (rest d1) as [[[]|e] d']; intros Hd;
        [injection Hd as <-; exact Hrest | discriminate Hd]]
  end.
  match goal with
  | |- sound (snd (?rest ?d1)) =>
      assert (Hp : preserves sound rest); [|apply Hp; clear Hp]
  end.
  - apply preserves_mbind; [apply set_brightness_sound | intros _].
    apply preserves_mbind; [apply set_red_sound | intros _].
    apply preserves_mbind; [apply set_green_sound | intros _].
    apply preserves_mbind; [apply set_blue_sound | intros _].
    apply preserves_mbind; [apply display_field_sound; reflexivity | intros _].
    destruct (negb (String.eqb name "")); [|apply preserves_raise].
    destruct (serial_open name); [|apply preserves_raise].
    apply display_field_sound; reflexivity.
  - split; [exact Hnum|]. split.
    + unfold consistent. cbn. rewrite length_replicate. lia.
    + cbn. apply Forall_replicate, default_stored.
Qed.

(** Every display a client can reach owns as many tubes as it says, at
    least one, and every tube is within the ranges the setters enforce: a
    digit that passed the substring test, and brightness, red, green and
    blue in 0..255. *)
Lemma reachable_sound d : reachable log10 d -> sound d.
Proof.
  induction 1 as [number name b r g bl d Hinit | c d _ IH].
  - exact (init_sound _ _ _ _ _ _ _ Hinit).
  - now apply display_run_sound.
Qed.

End Reachable.

(** Within the enforced ranges, a tube is within the legal ranges as soon
    as its digit has exactly one character. *)
Lemma stored_legal (u : SmartNixieTube.t) :
  stored u -> String.length (SmartNixieTube.digit u) = 1%nat -> legal u.
Proof.
  intros [Hd Hrest] Hlen. split; [|exact Hrest].
  destruct (SmartNixieTube.digit u) as [|c [|c' s]]; try discriminate Hlen.
  exists c. split; [|reflexivity].
  rewrite one_character_test in Hd. now apply bool_decide_eq_true in Hd.
Qed.

(** The digit of a reachable display need not be legal: one call of the
    digit setter on a tube of a new display leaves ["01"] there. *)
Lemma reachable_two_character_digit :
  exists d : SmartNixieTubeDisplay.t Wire.t,
    reachable log10_table d /\
    SmartNixieTube.digit <$> tubes d = ["01"] /\
    ~ Forall legal (tubes d).
Proof.
  exists (snd (display_run log10_table (Tube 0 (SetDigit "01")) (fresh 1))).
  split; [|split].
  - apply reach_call, (reach_init log10_table 1 "COM1" 0 0 0 0). reflexivity.
  - reflexivity.
  - intros Hall. apply Forall_cons in Hall as [[[c [_ Hc]] _] _].
    discriminate Hc.
Qed.

(** [__del__] never raises, and on an open line it leaves the blank frame
    written and the line closed. *)
Lemma del_returns {P} `{SerialPort P} (d : SmartNixieTubeDisplay.t P) :
  fst (del d) = Ok tt.
Proof.
  unfold del.
  now destruct ((SmartNixieTubeDisplay.reset;; send_command;; at_port close) d).
Qed.

Example del_fresh :
  port (snd (del (fresh 1)))
  = Some (Wire.mk false ["$-,N,N,000,000,000,000!"]).
Proof. reflexivity. Qed.

(** ** Further instances of the wire format *)

Example frame_of_three (u0 u1 u2 : SmartNixieTube.t) (d : SmartNixieTubeDisplay.t Wire.t) :
  tubes d = [u0; u1; u2] ->
  SmartNixieTubeDisplay.generate_command_string d
  = "$" +:+ Spec.encode_fragment u2 +:+
    "$" +:+ Spec.encode_fragment u1 +:+
    "$" +:+ Spec.encode_fragment u0 +:+ "!".
Proof.
  intros Ht. unfold SmartNixieTubeDisplay.generate_command_string.
  rewrite Ht. cbn [fold_left]. rewrite !tube_string_fragment, append_empty_r.
  now rewrite !append_assoc.
Qed.

Lemma length_append (a b : string) :
  String.length (a +:+ b) = (String.length a + String.length b)%nat.
Proof.
  induction a as [|x a IH]; [reflexivity|].
  rewrite append_cons. cbn. now rewrite IH.
Qed.

Lemma format_03d_length (v : Z) :
  byte_range v -> String.length (format_03d v) = 3%nat.
Proof.
  intros Hv. apply format_03d_byte in Hv. unfold three_digits in Hv.
  destruct (format_03d v) as [|a [|b [|c [|x s]]]]; try discriminate Hv.
  reflexivity.
Qed.

(** The string of a tube within the legal ranges has 22 characters:
    ["$"], the digit, two flags, four fields of three digits, six commas. *)
Lemma legal_command_string_length (u : SmartNixieTube.t) :
  legal u ->
  String.length (SmartNixieTube.generate_command_string u) = 22%nat.
Proof.
  intros ([c [_ Hc]] & Hb & Hr & Hg & Hbl).
  unfold SmartNixieTube.generate_command_string,
    SmartNixieTube.convert_digit_to_string_with_leading_zeros.
  rewrite !length_append, Hc, !format_03d_length by assumption.
  now destruct (SmartNixieTube.left_decimal_point u),
    (SmartNixieTube.right_decimal_point u).
Qed.

(** The largest number a display of fifteen tubes does accept. *)
Example display_fifteen_digits :
  SmartNixieTube.digit
    <$> tubes (snd (set_display_number log10_table 999999999999997 (fresh 15)))
  = ["9"; "9"; "9"; "9"; "9"; "9"; "9"; "9"; "9"; "9"; "9"; "9"; "9"; "9"; "7"].
Proof. reflexivity. Qed.

(** * Further properties of the code *)

(** ** The tube *)

(** X1: the tube constructor returns a tube exactly when brightness, red,
    green and blue are all in 0..255; the tube then holds the arguments as
    given, the digit replaced by ["-"] if it fails the substring test. *)
Theorem tube_init_accepts_byte_ranges (digit0 : string) (ldp rdp : bool)
    (brightness0 red0 green0 blue0 : Z) :
  (byte_range brightness0 /\ byte_range red0 /\
   byte_range green0 /\ byte_range blue0 ->
   SmartNixieTube.init digit0 ldp rdp brightness0 red0 green0 blue0
   = Ok (constructed digit0 ldp rdp brightness0 red0 green0 blue0))
  /\
  (forall u,
     SmartNixieTube.init digit0 ldp rdp brightness0 red0 green0 blue0 = Ok u ->
     byte_range brightness0 /\ byte_range red0 /\
     byte_range green0 /\ byte_range blue0).
Proof.
  unfold SmartNixieTube.init, constructed, mbind, M_bind, bind.
  unfold SmartNixieTube.set_digit, SmartNixieTube.set_brightness,
    SmartNixieTube.set_red, SmartNixieTube.set_green, SmartNixieTube.set_blue.
  pose proof (byte_range_test brightness0) as Tb.
  pose proof (byte_range_test red0) as Tr.
  pose proof (byte_range_test green0) as Tg.
  pose proof (byte_range_test blue0) as Tbl.
  destruct (str_in digit0 "-0123456789");
  destruct ((brightness0 <? 0) || (brightness0 >? 255));
  destruct ((red0 <? 0) || (red0 >? 255));
  destruct ((green0 <? 0) || (green0 >? 255));
  destruct ((blue0 <? 0) || (blue0 >? 255)); cbn;
  (split;
   [ intros (Hb & Hr & Hg & Hbl);
     apply Tb in Hb; apply Tr in Hr; apply Tg in Hg; apply Tbl in Hbl;
     first [reflexivity | discriminate]
   | intros u Hu; try discriminate Hu;
     exact (conj (proj2 Tb eq_refl) (conj (proj2 Tr eq_refl)
              (conj (proj2 Tg eq_refl) (proj2 Tbl eq_refl)))) ]).
Qed.

Lemma tube_init_accepts_byte_ranges_witness :
  SmartNixieTube.init "7" true false 128 0 64 255
  = Ok (SmartNixieTube.mk "7" true false 128 0 64 255)
  /\ SmartNixieTube.init "x" false false 0 0 0 0
     = Ok (SmartNixieTube.mk "-" false false 0 0 0 0).
Proof.
  split.
  - apply (proj1 (tube_init_accepts_byte_ranges "7" true false 128 0 64 255)).
    unfold byte_range. lia.
  - apply (proj1 (tube_init_accepts_byte_ranges "x" false false 0 0 0 0)).
    unfold byte_range. lia.
Defined.

(** X2: the tube constructor checks brightness, red, green, blue in that
    order and raises the [ValueError] of the first one out of 0..255. *)
Theorem tube_init_first_error (digit0 : string) (ldp rdp : bool)
    (brightness0 red0 green0 blue0 : Z) :
  (~ byte_range brightness0 ->
   SmartNixieTube.init digit0 ldp rdp brightness0 red0 green0 blue0
   = Raise (ValueError "Brightness must be between 0-255"))
  /\
  (byte_range brightness0 -> ~ byte_range red0 ->
   SmartNixieTube.init digit0 ldp rdp brightness0 red0 green0 blue0
   = Raise (ValueError "Red must be between 0-255"))
  /\
  (byte_range brightness0 -> byte_range red0 -> ~ byte_range green0 ->
   SmartNixieTube.init digit0 ldp rdp brightness0 red0 green0 blue0
   = Raise (ValueError "Green must be between 0-255"))
  /\
  (byte_range brightness0 -> byte_range red0 -> byte_range green0 ->
   ~ byte_range blue0 ->
   SmartNixieTube.init digit0 ldp rdp brightness0 red0 green0 blue0
   = Raise (ValueError "Blue must be between 0-255")).
Proof.
  unfold SmartNixieTube.init, mbind, M_bind, bind.
  unfold SmartNixieTube.set_digit, SmartNixieTube.set_brightness,
    SmartNixieTube.set_red, SmartNixieTube.set_green, SmartNixieTube.set_blue.
  rewrite !byte_range_test.
  destruct (str_in digit0 "-0123456789");
  destruct ((brightness0 <? 0) || (brightness0 >? 255));
  destruct ((red0 <? 0) || (red0 >? 255));
  destruct ((green0 <? 0) || (green0 >? 255));
  destruct ((blue0 <? 0) || (blue0 >? 255)); cbn;
  repeat apply conj; intros; first [reflexivity | congruence].
Qed.

Lemma tube_init_first_error_witness :
  SmartNixieTube.init "5" false false 256 300 0 0
  = Raise (ValueError "Brightness must be between 0-255")
  /\ SmartNixieTube.init "5" false false 255 0 (-1) 999
     = Raise (ValueError "Green must be between 0-255").
Proof.
  split.
  - apply (proj1 (tube_init_first_error "5" false false 256 300 0 0)).
    unfold byte_range. lia.
  - apply (proj1 (proj2 (proj2 (tube_init_first_error "5" false false 255 0 (-1) 999))));
      unfold byte_range; lia.
Defined.

(** X3: a value in 0..255 is printed by
    [convert_digit_to_string_with_leading_zeros] as exactly three decimal
    digits, and these read back as the value. *)
Theorem three_digit_field_reads_back (v : Z) :
  byte_range v ->
  String.length (SmartNixieTube.convert_digit_to_string_with_leading_zeros v)
  = 3%nat /\
  read_decimal (SmartNixieTube.convert_digit_to_string_with_leading_zeros v)
  = Some v.
Proof.
  intros [Hlo Hhi].
  unfold SmartNixieTube.convert_digit_to_string_with_leading_zeros.
  assert (Hall :
    forallb (fun w => (String.length (format_03d w) =? 3)%nat &&
                      match read_decimal (format_03d w) with
                      | Some w' => w' =? w
                      | None => false
                      end)
            (map Z.of_nat (seq 0 256)) = true) by (vm_compute; reflexivity).
  rewrite forallb_forall in Hall. specialize (Hall v).
  rewrite andb_true_iff, Nat.eqb_eq in Hall.
  destruct Hall as [Hlen Hread].
  - apply in_map_iff. exists (Z.to_nat v). split; [lia | apply in_seq; lia].
  - split; [exact Hlen|].
    destruct (read_decimal (format_03d v)) as [w|]; [|discriminate Hread].
    apply Z.eqb_eq in Hread. now subst w.
Qed.

Lemma three_digit_field_reads_back_witness :
  byte_range 5 /\
  String.length (SmartNixieTube.convert_digit_to_string_with_leading_zeros 5)
  = 3%nat /\
  read_decimal (SmartNixieTube.convert_digit_to_string_with_leading_zeros 5)
  = Some 5.
Proof.
  assert (H5 : byte_range 5) by (unfold byte_range; lia).
  split; [exact H5 | exact (three_digit_field_reads_back 5 H5)].
Defined.

(** ** The frame as a code *)

Lemma field_shape (v : Z) :
  byte_range v ->
  exists a b c, format_03d v = String a (String b (String c "")).
Proof.
  intros Hv. apply format_03d_length in Hv.
  destruct (format_03d v) as [|a [|b [|c [|x s]]]]; try discriminate Hv.
  now exists a, b, c.
Qed.

Lemma format_03d_inj (v w : Z) :
  byte_range v -> byte_range w -> format_03d v = format_03d w -> v = w.
Proof.
  intros Hv Hw Heq. apply format_03d_byte in Hv, Hw.
  unfold three_digits in Hv, Hw. rewrite <- Heq in Hw.
  destruct (format_03d v) as [|a [|b [|c [|x s]]]]; try discriminate Hv.
  destruct (Ascii.is_nat a), (Ascii.is_nat b), (Ascii.is_nat c);
    try discriminate Hv.
  apply Z.eqb_eq in Hv, Hw. congruence.
Qed.

(** Two tubes within the legal ranges with the same string are the same
    tube. *)
Lemma legal_string_inj (u u' : SmartNixieTube.t) :
  legal u -> legal u' ->
  SmartNixieTube.generate_command_string u
  = SmartNixieTube.generate_command_string u' ->
  u = u'.
Proof.
  destruct u as [dg l r b rd g bl], u' as [dg' l' r' b' rd' g' bl'].
  unfold legal; cbn.
  intros ([c [_ ->]] & Hb & Hr & Hg & Hbl) ([c' [_ ->]] & Hb' & Hr' & Hg' & Hbl').
  unfold SmartNixieTube.generate_command_string,
    SmartNixieTube.convert_digit_to_string_with_leading_zeros; cbn.
  intros Heq.
  assert (Hfields :
    c = c' /\ l = l' /\ r = r' /\ format_03d b = format_03d b' /\
    format_03d rd = format_03d rd' /\ format_03d g = format_03d g' /\
    format_03d bl = format_03d bl').
  { destruct (field_shape b Hb) as (x1 & x2 & x3 & E1).
    destruct (field_shape rd Hr) as (y1 & y2 & y3 & E2).
    destruct (field_shape g Hg) as (z1 & z2 & z3 & E3).
    destruct (field_shape bl Hbl) as (w1 & w2 & w3 & E4).
    destruct (field_shape b' Hb') as (x1' & x2' & x3' & E1').
    destruct (field_shape rd' Hr') as (y1' & y2' & y3' & E2').
    destruct (field_shape g' Hg') as (z1' & z2' & z3' & E3').
    destruct (field_shape bl' Hbl') as (w1' & w2' & w3' & E4').
    rewrite E1, E2, E3, E4, E1', E2', E3', E4' in *.
    destruct l, l', r, r'; cbv [String.append SmartNixieTube.convert_from_bool_to_yn] in Heq;
      try discriminate Heq; injection Heq; intros; subst; repeat split. }
  destruct Hfields as (-> & -> & -> & Fb & Fr & Fg & Fbl).
  apply format_03d_inj in Fb, Fr, Fg, Fbl; try assumption. now subst.
Qed.

Lemma append_inj_length (a b x y : string) :
  String.length a = String.length b -> a +:+ x = b +:+ y -> a = b /\ x = y.
Proof.
  revert b; induction a as [|c a IH]; intros [|c' b] Hlen Heq;
    try discriminate Hlen.
  - now split.
  - rewrite !append_cons in Heq. injection Heq as -> Heq.
    injection Hlen as Hlen. destruct (IH b Hlen Heq) as [-> ->]. now split.
Qed.

Lemma fragments_inj (us vs : list SmartNixieTube.t) :
  Forall legal us -> Forall legal vs ->
  Spec.fragments us +:+ "!" = Spec.fragments vs +:+ "!" -> us = vs.
Proof.
  revert vs; induction us as [|u us IH]; intros [|v vs] Hus Hvs Heq.
  - reflexivity.
  - discriminate Heq.
  - discriminate Heq.
  - apply Forall_cons in Hus as [Hu Hus]. apply Forall_cons in Hvs as [Hv Hvs].
    cbn [Spec.fragments] in Heq.
    change ("$" +:+ Spec.encode_fragment u +:+ Spec.fragments us)
      with (SmartNixieTube.generate_command_string u +:+ Spec.fragments us) in Heq.
    change ("$" +:+ Spec.encode_fragment v +:+ Spec.fragments vs)
      with (SmartNixieTube.generate_command_string v +:+ Spec.fragments vs) in Heq.
    rewrite !append_assoc in Heq.
    apply append_inj_length in Heq as [Huv Hrest].
    + f_equal; [now apply legal_string_inj | now apply IH].
    + now rewrite !legal_command_string_length.
Qed.

Section Code.
Context {P : Type} `{SerialPort P}.
Implicit Types (d : SmartNixieTubeDisplay.t P).

Lemma frame_fragments d :
  SmartNixieTubeDisplay.generate_command_string d
  = Spec.fragments (rev (tubes d)) +:+ "!".
Proof.
  unfold SmartNixieTubeDisplay.generate_command_string.
  now rewrite collected_fragments, append_empty_r.
Qed.

Lemma fragments_length (us : list SmartNixieTube.t) :
  Forall legal us ->
  String.length (Spec.fragments us) = (22 * length us)%nat.
Proof.
  induction 1 as [|u us Hu _ IH]; [reflexivity|].
  cbn [Spec.fragments length].
  change ("$" +:+ Spec.encode_fragment u +:+ Spec.fragments us)
    with (SmartNixieTube.generate_command_string u +:+ Spec.fragments us).
  rewrite length_append, legal_command_string_length, IH by assumption. lia.
Qed.

(** X4: the frame of a display whose tubes are within the legal ranges has
    22 characters per tube and one more for the ["!"]. *)
Theorem frame_length d :
  Forall legal (tubes d) ->
  String.length (SmartNixieTubeDisplay.generate_command_string d)
  = (22 * length (tubes d) + 1)%nat.
Proof.
  intros Hd. rewrite frame_fragments, length_append, fragments_length.
  - now rewrite length_rev.
  - now apply Forall_rev.
Qed.

(** X5: the frame determines the tubes: two displays whose tubes are within
    the legal ranges and whose frames are equal hold the same tubes in the
    same order. *)
Theorem frame_determines_tubes d d' :
  Forall legal (tubes d) -> Forall legal (tubes d') ->
  SmartNixieTubeDisplay.generate_command_string d
  = SmartNixieTubeDisplay.generate_command_string d' ->
  tubes d = tubes d'.
Proof.
  intros Hd Hd' Heq. rewrite !frame_fragments in Heq.
  apply fragments_inj in Heq; [|now apply Forall_rev..].
  apply (f_equal (@rev _)) in Heq. now rewrite !rev_involutive in Heq.
Qed.

End Code.

Lemma default_legal : legal SmartNixieTube.default.
Proof.
  split; [|repeat split; cbn; lia].
  exists "-"%char. split; [|reflexivity].
  unfold digit_chars. cbn. rewrite !elem_of_cons. tauto.
Qed.

Lemma frame_length_witness :
  Forall legal (tubes (fresh 2)) /\
  String.length (SmartNixieTubeDisplay.generate_command_string (fresh 2))
  = (22 * length (tubes (fresh 2)) + 1)%nat.
Proof.
  assert (Hl : Forall legal (tubes (fresh 2)))
    by (apply Forall_replicate, default_legal).
  split; [exact Hl | exact (frame_length (fresh 2) Hl)].
Defined.

Lemma frame_determines_tubes_witness :
  SmartNixieTubeDisplay.generate_command_string (fresh 2)
  = SmartNixieTubeDisplay.generate_command_string
      (with_port (Some (Wire.mk false [])) (with_brightness 9 (fresh 2)))
  /\ tubes (fresh 2)
     = tubes (with_port (Some (Wire.mk false [])) (with_brightness 9 (fresh 2))).
Proof.
  split; [reflexivity|].
  apply frame_determines_tubes;
    [apply Forall_replicate, default_legal
    | apply Forall_replicate, default_legal
    | reflexivity].
Defined.

(** ** Construction of a display *)

Section Construction.
Context {P : Type} `{SerialPort P}.
Implicit Types (d : SmartNixieTubeDisplay.t P).

Lemma consistent_replicate (k : nat) (u : SmartNixieTube.t) b r g bl nm
    (pt : option P) :
  consistent (SmartNixieTubeDisplay.mk (Z.of_nat k) (replicate k u) b r g bl nm pt).
Proof. unfold consistent. cbn. now rewrite length_replicate. Qed.

(** One bulk setter in a sequence, on a display of [k] equal tubes. *)
Lemma then_brightness {A} (rest : M (SmartNixieTubeDisplay.t P) A)
    (k : nat) (u : SmartNixieTube.t) v b r g bl nm (pt : option P) :
  byte_range v ->
  (SmartNixieTubeDisplay.set_brightness v ;; rest)
    (SmartNixieTubeDisplay.mk (Z.of_nat k) (replicate k u) b r g bl nm pt)
  = rest (SmartNixieTubeDisplay.mk (Z.of_nat k)
            (replicate k (SmartNixieTube.with_brightness v u)) v r g bl nm pt).
Proof.
  intros Hv. unfold mbind, M_bind.
  rewrite (bind_ok _ _ _ _ _
             (set_brightness_ok _ v (consistent_replicate k _ _ _ _ _ _ _) Hv)).
  unfold with_tubes, with_brightness; cbn. now rewrite fmap_replicate.
Qed.

Lemma then_red {A} (rest : M (SmartNixieTubeDisplay.t P) A)
    (k : nat) (u : SmartNixieTube.t) v b r g bl nm (pt : option P) :
  byte_range v ->
  (SmartNixieTubeDisplay.set_red v ;; rest)
    (SmartNixieTubeDisplay.mk (Z.of_nat k) (replicate k u) b r g bl nm pt)
  = rest (SmartNixieTubeDisplay.mk (Z.of_nat k)
            (replicate k (SmartNixieTube.with_red v u)) b v g bl nm pt).
Proof.
  intros Hv. unfold mbind, M_bind.
  rewrite (bind_ok _ _ _ _ _
             (set_red_ok _ v (consistent_replicate k _ _ _ _ _ _ _) Hv)).
  unfold with_tubes, with_red; cbn. now rewrite fmap_replicate.
Qed.

Lemma then_green {A} (rest : M (SmartNixieTubeDisplay.t P) A)
    (k : nat) (u : SmartNixieTube.t) v b r g bl nm (pt : option P) :
  byte_range v ->
  (SmartNixieTubeDisplay.set_green v ;; rest)
    (SmartNixieTubeDisplay.mk (Z.of_nat k) (replicate k u) b r g bl nm pt)
  = rest (SmartNixieTubeDisplay.mk (Z.of_nat k)
            (replicate k (SmartNixieTube.with_green v u)) b r v bl nm pt).
Proof.
  intros Hv. unfold mbind, M_bind.
  rewrite (bind_ok _ _ _ _ _
             (set_green_ok _ v (consistent_replicate k _ _ _ _ _ _ _) Hv)).
  unfold with_tubes, with_green; cbn. now rewrite fmap_replicate.
Qed.

Lemma then_blue {A} (rest : M (SmartNixieTubeDisplay.t P) A)
    (k : nat) (u : SmartNixieTube.t) v b r g bl nm (pt : option P) :
  byte_range v ->
  (SmartNixieTubeDisplay.set_blue v ;; rest)
    (SmartNixieTubeDisplay.mk (Z.of_nat k) (replicate k u) b r g bl nm pt)
  = rest (SmartNixieTubeDisplay.mk (Z.of_nat k)
            (replicate k (SmartNixieTube.with_blue v u)) b r g v nm pt).
Proof.
  intros Hv. unfold mbind, M_bind.
  rewrite (bind_ok _ _ _ _ _
             (set_blue_ok _ v (consistent_replicate k _ _ _ _ _ _ _) Hv)).
  unfold with_tubes, with_blue; cbn. now rewrite fmap_replicate.
Qed.

(** The constructor up to the first bulk setter: the tubes are allocated. *)
Lemma init_allocates {A} (rest : M (SmartNixieTubeDisplay.t P) A) (number : Z) :
  1 <= number ->
  (set_number_of_tubes_in_display number ;;
   modify (with_tubes []) ;;
   d ← get;
   for_range (Z.to_nat (number_of_tubes_in_display d)) (fun _ =>
     modify (fun d => with_tubes (tubes d ++ [SmartNixieTube.default]) d)) ;;
   rest) unset
  = rest (SmartNixieTubeDisplay.mk (Z.of_nat (Z.to_nat number))
            (replicate (Z.to_nat number) SmartNixieTube.default)
            0 0 0 0 "" None).
Proof.
  intros Hn. unfold set_number_of_tubes_in_display, mbind, M_bind.
  replace (number <? 1) with false by (symmetry; apply Z.ltb_ge; lia).
  unfold bind at 1 2 3. cbn [modify get].
  unfold for_range, bind at 1. rewrite append_default_loop.
  unfold with_tubes, with_number_of_tubes_in_display, unset; cbn.
  now rewrite Z2Nat.id by lia.
Qed.

(** X6: given at least one tube, four values in 0..255, a non-empty port
    name and a port that opens, the constructor returns a display with that
    many tubes, each blank with both decimal points off and the four values
    as given, the same four values at display level, and the opened port. *)
Theorem display_init_result (number : Z) (name : string)
    (brightness0 red0 green0 blue0 : Z) (p : P) :
  1 <= number ->
  byte_range brightness0 -> byte_range red0 ->
  byte_range green0 -> byte_range blue0 ->
  name <> "" -> serial_open name = Ok p ->
  SmartNixieTubeDisplay.init number name brightness0 red0 green0 blue0
  = Ok (SmartNixieTubeDisplay.mk number
          (replicate (Z.to_nat number)
             (SmartNixieTube.mk "-" false false brightness0 red0 green0 blue0))
          brightness0 red0 green0 blue0 name (Some p)).
Proof.
  intros Hn Hb Hr Hg Hbl Hname Hopen. unfold SmartNixieTubeDisplay.init.
  rewrite init_allocates by exact Hn.
  rewrite then_brightness, then_red, then_green, then_blue by assumption.
  unfold mbind, M_bind, bind, set_serial_port_name, modify.
  apply String.eqb_neq in Hname. rewrite Hname, Hopen. cbn.
  now rewrite Z2Nat.id by lia.
Qed.

(** X7: the constructor validates its numbers before it looks at the port:
    fewer than one tube, then brightness, red, green, blue out of 0..255, in
    that order, each raise their own [ValueError], whatever the port name. *)
Theorem display_init_argument_errors (number : Z) (name : string)
    (brightness0 red0 green0 blue0 : Z) :
  (number < 1 ->
   SmartNixieTubeDisplay.init (P := P) number name brightness0 red0 green0 blue0
   = Raise (ValueError "number_of_tubes_in_display must be greater than 0"))
  /\
  (1 <= number -> ~ byte_range brightness0 ->
   SmartNixieTubeDisplay.init (P := P) number name brightness0 red0 green0 blue0
   = Raise (ValueError "Brightness must be between 0-255"))
  /\
  (1 <= number -> byte_range brightness0 -> ~ byte_range red0 ->
   SmartNixieTubeDisplay.init (P := P) number name brightness0 red0 green0 blue0
   = Raise (ValueError "Red must be between 0-255"))
  /\
  (1 <= number -> byte_range brightness0 -> byte_range red0 ->
   ~ byte_range green0 ->
   SmartNixieTubeDisplay.init (P := P) number name brightness0 red0 green0 blue0
   = Raise (ValueError "Green must be between 0-255"))
  /\
  (1 <= number -> byte_range brightness0 -> byte_range red0 ->
   byte_range green0 -> ~ byte_range blue0 ->
   SmartNixieTubeDisplay.init (P := P) number name brightness0 red0 green0 blue0
   = Raise (ValueError "Blue must be between 0-255")).
Proof.
  assert (Hbad : forall v, ~ byte_range v -> (v <? 0) || (v >? 255) = true)
    by (intros v Hv; rewrite byte_range_test in Hv; now apply not_false_is_true).
  unfold SmartNixieTubeDisplay.init. repeat apply conj.
  - intros Hn. unfold set_number_of_tubes_in_display, mbind, M_bind, bind.
    now replace (number <? 1) with true by (symmetry; apply Z.ltb_lt; lia).
  - intros Hn Hb. rewrite init_allocates by exact Hn.
    unfold mbind, M_bind, bind, SmartNixieTubeDisplay.set_brightness.
    now rewrite (Hbad _ Hb).
  - intros Hn Hb Hr. rewrite init_allocates by exact Hn.
    rewrite then_brightness by assumption.
    unfold mbind, M_bind, bind, SmartNixieTubeDisplay.set_red.
    now rewrite (Hbad _ Hr).
  - intros Hn Hb Hr Hg. rewrite init_allocates by exact Hn.
    rewrite then_brightness, then_red by assumption.
    unfold mbind, M_bind, bind, SmartNixieTubeDisplay.set_green.
    now rewrite (Hbad _ Hg).
  - intros Hn Hb Hr Hg Hbl. rewrite init_allocates by exact Hn.
    rewrite then_brightness, then_red, then_green by assumption.
    unfold mbind, M_bind, bind, SmartNixieTubeDisplay.set_blue.
    now rewrite (Hbad _ Hbl).
Qed.

(** X8: with valid numbers, an empty port name raises
    [AssertionError('No serial port specified')], and a port that fails to
    open raises [AssertionError] with the port name in the message, whatever
    the port's own exception was. *)
Theorem display_init_port_errors (number : Z) (name : string)
    (brightness0 red0 green0 blue0 : Z) :
  1 <= number ->
  byte_range brightness0 -> byte_range red0 ->
  byte_range green0 -> byte_range blue0 ->
  (name = "" ->
   SmartNixieTubeDisplay.init (P := P) number name brightness0 red0 green0 blue0
   = Raise (AssertionError "No serial port specified"))
  /\
  (forall e, name <> "" -> serial_open (P := P) name = Raise e ->
   SmartNixieTubeDisplay.init (P := P) number name brightness0 red0 green0 blue0
   = Raise (AssertionError ("Error opening serial port " +:+ name))).
Proof.
  intros Hn Hb Hr Hg Hbl. unfold SmartNixieTubeDisplay.init.
  rewrite init_allocates by exact Hn.
  rewrite then_brightness, then_red, then_green, then_blue by assumption.
  unfold mbind, M_bind, bind, set_serial_port_name, modify. split.
  - now intros ->.
  - intros e Hname Hopen. apply String.eqb_neq in Hname.
    now rewrite Hname, Hopen.
Qed.

End Construction.

Lemma display_init_result_witness :
  SmartNixieTubeDisplay.init 2 "COM1" 128 0 0 255
  = Ok (SmartNixieTubeDisplay.mk 2
          [SmartNixieTube.mk "-" false false 128 0 0 255;
           SmartNixieTube.mk "-" false false 128 0 0 255]
          128 0 0 255 "COM1" (Some (Wire.mk true []))).
Proof.
  apply (display_init_result 2 "COM1" 128 0 0 255 (Wire.mk true []));
    unfold byte_range; first [lia | discriminate | reflexivity].
Defined.

Lemma display_init_argument_errors_witness :
  SmartNixieTubeDisplay.init (P := Wire.t) 0 "COM1" 0 0 0 0
  = Raise (ValueError "number_of_tubes_in_display must be greater than 0")
  /\ SmartNixieTubeDisplay.init (P := Wire.t) 4 "" 0 0 256 (-1)
     = Raise (ValueError "Green must be between 0-255").
Proof.
  split.
  - apply (proj1 (display_init_argument_errors (P := Wire.t) 0 "COM1" 0 0 0 0)).
    lia.
  - apply (proj1 (proj2 (proj2 (proj2
             (display_init_argument_errors (P := Wire.t) 4 "" 0 0 256 (-1))))));
      unfold byte_range; lia.
Defined.

Lemma display_init_port_errors_witness :
  SmartNixieTubeDisplay.init (P := Wire.t) 3 "" 0 0 0 0
  = Raise (AssertionError "No serial port specified")
  /\ SmartNixieTubeDisplay.init (P := unit) 3 "COM9" 0 0 0 0
     = Raise (AssertionError "Error opening serial port COM9").
Proof.
  assert (H0 : byte_range 0) by (unfold byte_range; lia).
  split.
  - apply (proj1 (display_init_port_errors (P := Wire.t) 3 "" 0 0 0 0
                    ltac:(lia) H0 H0 H0 H0)).
    reflexivity.
  - apply (proj2 (display_init_port_errors (P := unit) 3 "COM9" 0 0 0 0
                    ltac:(lia) H0 H0 H0 H0)
             (SerialException "could not open port COM9"));
      [discriminate | reflexivity].
Defined.

(** ** What every reachable display satisfies, spelled out *)

(** X9: every display obtained from the constructor and any sequence of
    public calls, returning or raising, has at least one tube, as many
    tubes as [number_of_tubes_in_display] says, and in every tube a digit
    that occurs contiguously in ['-0123456789'] and brightness, red, green
    and blue in 0..255. *)
Theorem reachable_displays_keep_ranges {P} `{SerialPort P}
    (log10 : Z -> float) (d : SmartNixieTubeDisplay.t P) :
  reachable log10 d ->
  1 <= number_of_tubes_in_display d /\
  number_of_tubes_in_display d = Z.of_nat (length (tubes d)) /\
  Forall (fun u =>
            (exists pre post,
               "-0123456789" = pre +:+ SmartNixieTube.digit u +:+ post) /\
            0 <= SmartNixieTube.brightness u <= 255 /\
            0 <= SmartNixieTube.red u <= 255 /\
            0 <= SmartNixieTube.green u <= 255 /\
            0 <= SmartNixieTube.blue u <= 255)
         (tubes d).
Proof.
  intros Hd. destruct (reachable_sound log10 d Hd) as (Hn & Hc & Hs).
  split; [exact Hn | split; [exact Hc|]].
  eapply Forall_impl; [exact Hs|].
  intros u (Hdigit & Hrest). split; [now apply str_in_spec | exact Hrest].
Qed.

Lemma reachable_displays_keep_ranges_witness :
  reachable log10_table
    (snd (display_run log10_table (DisplayNumber 42) (fresh 3)))
  /\ 1 <= number_of_tubes_in_display
            (snd (display_run log10_table (DisplayNumber 42) (fresh 3))).
Proof.
  assert (Hr : reachable log10_table
                 (snd (display_run log10_table (DisplayNumber 42) (fresh 3)))).
  { apply reach_call, (reach_init log10_table 3 "COM1" 0 0 0 0). reflexivity. }
  split; [exact Hr|].
  exact (proj1 (reachable_displays_keep_ranges log10_table _ Hr)).
Defined.

(** ** More on [set_display_number] *)

Section NumberOutcome.
Context {P : Type} `{SerialPort P}.
Variable log10 : Z -> float.
Implicit Types (d : SmartNixieTubeDisplay.t P) (u : SmartNixieTube.t).

(** X10: on a display that owns as many tubes as it says,
    [set_display_number] either returns, or raises and leaves the display
    exactly as it was: no digit is assigned by a call that fails. *)
Theorem set_display_number_all_or_nothing (number : Z) d :
  consistent d ->
  (exists d', set_display_number log10 number d = (Ok tt, d')) \/
  (exists e, set_display_number log10 number d = (Raise e, d)).
Proof.
  intros Hc.
  destruct (Z.lt_ge_cases number 0) as [Hneg | Hpos].
  { right. eexists. now apply set_display_number_negative. }
  destruct (Z.eq_dec number 0) as [-> | Hnz].
  { left. eexists.
    apply (set_display_number_accepted log10 0 d Hc); [lia | now left]. }
  destruct (int_of_float (log10 number)) as [k|e] eqn:Hk.
  - destruct (Z.lt_ge_cases (number_of_tubes_in_display d) (k + 1)) as [Hlt | Hge].
    + right. eexists.
      now apply (set_display_number_rejected log10 number k); [lia | |].
    + left. eexists.
      apply (set_display_number_accepted log10 number d Hc); [lia|].
      right. exists k. split; [exact Hk | lia].
  - right. exists e. unfold set_display_number, mbind, M_bind.
    replace (number <? 0) with false by (symmetry; apply Z.ltb_ge; lia).
    replace (number =? 0) with false by (symmetry; apply Z.eqb_neq; lia).
    now rewrite (bind_ok get _ d d d eq_refl), Hk.
Qed.



End NumberOutcome.

Lemma set_display_number_all_or_nothing_witness :
  consistent (fresh 3) /\
  ((exists d', set_display_number log10_table 1000 (fresh 3) = (Ok tt, d')) \/
   (exists e, set_display_number log10_table 1000 (fresh 3) = (Raise e, fresh 3))).
Proof.
  split; [apply consistent_fresh|].
  exact (set_display_number_all_or_nothing log10_table 1000 (fresh 3)
           (consistent_fresh 3)).
Defined.

(** ** Reading the number back *)






Section ReadBack.
Context {P : Type} `{SerialPort P}.
Variable log10 : Z -> float.
Implicit Types (d : SmartNixieTubeDisplay.t P).




End ReadBack.



(** ** Sending and tear-down *)

Section Transmission.
Context {P : Type} `{SerialPort P}.
Implicit Types (d : SmartNixieTubeDisplay.t P).

Lemma at_port_port_only {A} d0 (m : M P A) :
  preserves (fun d' => with_port (port d0) d' = d0) (at_port m).
Proof.
  intros d' Hd'. unfold at_port.
  destruct (port d') as [p|]; [|exact Hd']. now destruct (m p).
Qed.

Lemma send_command_port_only d0 :
  preserves (fun d' => with_port (port d0) d' = d0) (send_command (P := P)).
Proof.
  unfold send_command.
  apply preserves_mbind; [apply preserves_get | intros d1].
  destruct (port d1) as [p|]; [|apply preserves_raise].
  destruct (isOpen p); [|apply preserves_ret].
  apply preserves_try_except.
  repeat (apply preserves_mbind; [|intros ?]);
    first [apply preserves_get | apply at_port_port_only].
Qed.

(** X14: whatever the port does, and whether it returns or raises,
    [send_command] changes nothing of the display but the port: the tubes
    and the display-level values are as before. *)
Theorem send_command_changes_port_only d :
  with_port (port d) (snd (send_command d)) = d.
Proof. apply send_command_port_only. now destruct d. Qed.

(** X15: on a display that has its port, [send_command] either returns or
    raises [ConnectionError]; an exception of the port never escapes as it
    is. *)
Theorem send_command_raises_connection_error_only d :
  is_Some (port d) ->
  fst (send_command d) = Ok tt \/
  exists msg, fst (send_command d) = Raise (ConnectionError msg).
Proof.
  intros [p Hp]. unfold send_command, mbind, M_bind.
  rewrite (bind_ok get _ d d d eq_refl), Hp.
  destruct (isOpen p); [|now left].
  unfold try_except.
  match goal with |- context [match ?m d with _ => _ end] =>
    destruct (m d) as [[[]|e] d'] end.
  - now left.
  - right. now exists (str_exn e).
Qed.

(** X16: on an open port whose three flushes and write succeed,
    [send_command] calls [flushOutput], [flushInput], [flush] and then
    [write] with the frame of the tubes as they are, in that order, and
    returns with the port as these four calls leave it. *)
Theorem send_command_flushes_then_writes d (p p1 p2 p3 p4 : P) :
  port d = Some p -> isOpen p = true ->
  flushOutput p = (Ok tt, p1) ->
  flushInput p1 = (Ok tt, p2) ->
  flush p2 = (Ok tt, p3) ->
  write (SmartNixieTubeDisplay.generate_command_string d) p3 = (Ok tt, p4) ->
  send_command d = (Ok tt, with_port (Some p4) d).
Proof.
  intros Hp Hopen H1 H2 H3 H4. destruct d as [n ts b r g bl nm pt].
  cbn in Hp. subst pt.
  unfold send_command, mbind, M_bind, try_except, bind, get, at_port. cbn.
  rewrite Hopen. cbn. rewrite H1. cbn. rewrite H2. cbn. rewrite H3. cbn.
  unfold SmartNixieTubeDisplay.generate_command_string in H4 |- *.
  cbn in H4 |- *. now rewrite H4.
Qed.

(** The same on the recording line: one write, of the frame. *)
Lemma send_command_open_wire (d : SmartNixieTubeDisplay.t Wire.t)
    (sent : list string) :
  port d = Some (Wire.mk true sent) ->
  send_command d
  = (Ok tt,
     with_port
       (Some (Wire.mk true
                (sent ++ [SmartNixieTubeDisplay.generate_command_string d]))) d).
Proof. intros Hp. destruct d. cbn in Hp. subst. reflexivity. Qed.

Lemma reset_twice d :
  blanked <$> (blanked <$> tubes d) = blanked <$> tubes d.
Proof. rewrite <- list_fmap_compose. now apply list_fmap_ext. Qed.

(** X17: [reset] done twice is [reset] done once. *)
Theorem reset_idempotent d :
  SmartNixieTubeDisplay.reset (snd (SmartNixieTubeDisplay.reset d))
  = SmartNixieTubeDisplay.reset d.
Proof.
  rewrite !reset_result. cbn [snd tubes with_tubes].
  fold blanked. now rewrite reset_twice.
Qed.

(** X18: [__del__] never raises, whatever the port does, and leaves every
    tube blank with brightness and colour 0 and its decimal points as they
    were; the display-level values are not touched. *)
Theorem del_blanks_the_tubes d :
  fst (del d) = Ok tt /\
  tubes (snd (del d)) = blanked <$> tubes d /\
  with_port (port d) (with_tubes (tubes d) (snd (del d))) = d.
Proof.
  unfold del, mbind, M_bind.
  rewrite (bind_ok _ _ _ _ _ (reset_result d)). fold blanked.
  set (d1 := with_tubes (blanked <$> tubes d) d).
  assert (Hrest : preserves (fun d' => with_port (port d1) d' = d1)
                    (bind send_command (fun _ => at_port close))).
  { apply preserves_bind; [apply send_command_port_only | intros _].
    apply at_port_port_only. }
  specialize (Hrest d1). 
  destruct (bind send_command (fun _ => at_port close) d1) as [r d2].
  cbn [fst snd] in Hrest |- *.
  assert (Hd2 : with_port (port d1) d2 = d1) by (apply Hrest; now destruct d).
  split; [reflexivity|].
  assert (Ht : tubes d2 = tubes d1) by exact (f_equal tubes Hd2).
  split; [exact Ht|].
  transitivity (with_tubes (tubes d) (with_port (port d1) d2)); [reflexivity|].
  rewrite Hd2. unfold d1. now destruct d.
Qed.

End Transmission.

(** X19: on the recording line, [__del__] of a display with an open port
    writes exactly one frame, that of the blanked tubes, and closes the
    port; with the port already closed it writes nothing. *)
Theorem del_writes_blank_frame_and_closes
    (d : SmartNixieTubeDisplay.t Wire.t) (sent : list string) :
  (port d = Some (Wire.mk true sent) ->
   port (snd (del d))
   = Some (Wire.mk false
             (sent ++ [SmartNixieTubeDisplay.generate_command_string
                         (with_tubes (blanked <$> tubes d) d)])))
  /\
  (port d = Some (Wire.mk false sent) ->
   port (snd (del d)) = Some (Wire.mk false sent)).
Proof.
  unfold del, mbind, M_bind.
  rewrite (bind_ok _ _ _ _ _ (reset_result d)). fold blanked.
  split; intros Hp.
  - rewrite (bind_ok _ _ _ _ _
               (send_command_open_wire (with_tubes (blanked <$> tubes d) d)
                  sent Hp)).
    reflexivity.
  - destruct d. cbn in Hp. subst. reflexivity.
Qed.

Lemma send_command_raises_connection_error_only_witness :
  is_Some (port (fresh 2)) /\
  (fst (send_command (fresh 2)) = Ok tt \/
   exists msg, fst (send_command (fresh 2)) = Raise (ConnectionError msg)).
Proof.
  assert (Hp : is_Some (port (fresh 2))) by (eexists; reflexivity).
  split; [exact Hp|].
  exact (send_command_raises_connection_error_only (fresh 2) Hp).
Defined.

Lemma send_command_flushes_then_writes_witness :
  send_command (fresh 1)
  = (Ok tt,
     with_port (Some (Wire.mk true ["$-,N,N,000,000,000,000!"])) (fresh 1)).
Proof.
  exact (send_command_flushes_then_writes (fresh 1)
           (Wire.mk true []) (Wire.mk true []) (Wire.mk true [])
           (Wire.mk true []) (Wire.mk true ["$-,N,N,000,000,000,000!"])
           eq_refl eq_refl eq_refl eq_refl eq_refl eq_refl).
Defined.

Lemma del_writes_blank_frame_and_closes_witness :
  port (snd (del (fresh 1)))
  = Some (Wire.mk false
            ([] ++ [SmartNixieTubeDisplay.generate_command_string
                      (with_tubes (blanked <$> tubes (fresh 1)) (fresh 1))]))
  /\ port (snd (del (with_port (Some (Wire.mk false ["x"])) (fresh 1))))
     = Some (Wire.mk false ["x"]).
Proof.
  split.
  - exact (proj1 (del_writes_blank_frame_and_closes (fresh 1) []) eq_refl).
  - exact (proj2 (del_writes_blank_frame_and_closes
                    (with_port (Some (Wire.mk false ["x"])) (fresh 1)) ["x"])
             eq_refl).
Defined.

(** ** Bulk setters on a display whose tube count was changed

    [number_of_tubes_in_display] has a public setter; after it the count
    and the list of tubes can differ, and the bulk setters run over the
    count. *)

Section Bounds.
Context {P : Type} `{SerialPort P}.
Implicit Types (d : SmartNixieTubeDisplay.t P).

Lemma bind_raise_here {St A B} (m : M St A) (k : A -> M St B) (s s' : St) e :
  m s = (Raise e, s') -> bind m k s = (Raise e, s').
Proof. intros Hm. unfold bind. now rewrite Hm. Qed.

Lemma for_range_from_add {St} (body : nat -> M St unit) (a b i : nat) (s : St) :
  for_range_from i (a + b) body s
  = bind (for_range_from i a body) (fun _ => for_range_from (i + a) b body) s.
Proof.
  revert i s; induction a as [|a IH]; intros i s.
  - cbn [Nat.add for_range_from]. unfold bind, ret.
    now rewrite Nat.add_0_r.
  - cbn [Nat.add for_range_from]. unfold bind.
    destruct (body i s) as [[[]|e] s']; [|reflexivity].
    rewrite IH. unfold bind.
    now replace (S i + a)%nat with (i + S a)%nat by lia.
Qed.

(** The loop of a bulk setter over [k] tubes: within the list it rewrites
    the first [k] tubes; beyond it, it rewrites them all and then raises
    [IndexError]. *)
Lemma bulk_loop (setv : Z -> M SmartNixieTube.t unit)
    (upd : SmartNixieTube.t -> SmartNixieTube.t)
    (field : SmartNixieTubeDisplay.t P -> Z) (v : Z) d (k : nat) :
  (forall u, setv v u = (Ok tt, upd u)) ->
  (forall l d', field (with_tubes l d') = field d') ->
  field d = v ->
  let body := fun i : nat =>
    (d' ← get; at_tube i (setv (field d'))) : M (SmartNixieTubeDisplay.t P) unit in
  ((k <= length (tubes d))%nat ->
   for_range k body d
   = (Ok tt, with_tubes ((upd <$> take k (tubes d)) ++ drop k (tubes d)) d))
  /\
  ((length (tubes d) < k)%nat ->
   for_range k body d
   = (Raise (IndexError "list index out of range"),
      with_tubes (upd <$> tubes d) d)).
Proof.
  intros Hset Hfield Hv body.
  assert (Hinv : forall d' j x, field d' = v ->
                   field (with_tubes (<[j := x]> (tubes d')) d') = v)
    by (intros; now rewrite Hfield).
  assert (Hbody : forall j d' u, field d' = v -> tubes d' !! j = Some u ->
                    body j d' = (Ok tt, with_tubes (<[j := upd u]> (tubes d')) d')).
  { intros j d' u Hd' Hj. unfold body, mbind, M_bind.
    rewrite (bind_ok get _ d' d' d' eq_refl), Hd'.
    now apply (at_tube_ok _ _ _ u). }
  assert (Hin : forall n, (n <= length (tubes d))%nat ->
            for_range n body d
            = (Ok tt, with_tubes ((upd <$> take n (tubes d)) ++ drop n (tubes d)) d)).
  { intros n Hn.
    pose proof (for_range_from_tubes (fun d' => field d' = v) body (fun _ => upd)
                  Hinv Hbody (take n (tubes d)) [] (drop n (tubes d)) d Hv) as Hloop.
    cbn [app length] in Hloop. rewrite take_drop in Hloop.
    specialize (Hloop eq_refl).
    rewrite length_take, Nat.min_l in Hloop by exact Hn.
    unfold for_range. rewrite Hloop. now rewrite imap_ignore. }
  split; [apply Hin|].
  intros Hk. replace k with (length (tubes d) + S (k - S (length (tubes d))))%nat by lia.
  unfold for_range. rewrite for_range_from_add.
  fold (for_range (length (tubes d)) body).
  rewrite (bind_ok _ _ _ _ _ (Hin _ (Nat.le_refl _))).
  rewrite firstn_all, drop_all, app_nil_r. cbn [for_range_from Nat.add].
  apply bind_raise_here.
  unfold body, mbind, M_bind.
  set (d1 := with_tubes (upd <$> tubes d) d).
  rewrite (bind_ok get _ d1 d1 d1 eq_refl). unfold at_tube.
  replace (tubes d1 !! length (tubes d)) with (@None SmartNixieTube.t);
    [reflexivity|].
  symmetry. apply lookup_ge_None. unfold d1. cbn. now rewrite length_fmap.
Qed.

Ltac bulk_by_loop Hv side setv upd field :=
  apply byte_range_test in Hv; unfold mbind, M_bind; rewrite Hv;
  match goal with
  | |- bind (modify ?g) _ ?d = _ =>
      rewrite (bind_ok (modify g) _ d (g d) tt eq_refl);
      rewrite (bind_ok get _ (g d) (g d) (g d) eq_refl);
      apply (side _ _ (bulk_loop setv upd field _ (g d) _
                         ltac:(intros u; unfold setv; rewrite Hv; reflexivity)
                         ltac:(reflexivity) eq_refl))
  end.

(** X20: with the count at most the number of tubes owned, a bulk setter
    given a value in 0..255 overwrites the field of the first
    [number_of_tubes_in_display] tubes and leaves the tubes after them as
    they were. *)
Theorem bulk_setters_rewrite_first_tubes d (v : Z) :
  byte_range v ->
  (Z.to_nat (number_of_tubes_in_display d) <= length (tubes d))%nat ->
  let k := Z.to_nat (number_of_tubes_in_display d) in
  SmartNixieTubeDisplay.set_brightness v d
  = (Ok tt,
     with_tubes ((SmartNixieTube.with_brightness v <$> take k (tubes d))
                 ++ drop k (tubes d)) (with_brightness v d))
  /\
  SmartNixieTubeDisplay.set_red v d
  = (Ok tt,
     with_tubes ((SmartNixieTube.with_red v <$> take k (tubes d))
                 ++ drop k (tubes d)) (with_red v d))
  /\
  SmartNixieTubeDisplay.set_green v d
  = (Ok tt,
     with_tubes ((SmartNixieTube.with_green v <$> take k (tubes d))
                 ++ drop k (tubes d)) (with_green v d))
  /\
  SmartNixieTubeDisplay.set_blue v d
  = (Ok tt,
     with_tubes ((SmartNixieTube.with_blue v <$> take k (tubes d))
                 ++ drop k (tubes d)) (with_blue v d)).
Proof.
  intros Hv Hk k.
  unfold SmartNixieTubeDisplay.set_brightness, SmartNixieTubeDisplay.set_red,
    SmartNixieTubeDisplay.set_green, SmartNixieTubeDisplay.set_blue.
  split; [|split; [|split]].
  - bulk_by_loop Hv (@proj1) SmartNixieTube.set_brightness
      (SmartNixieTube.with_brightness v) (@brightness P). exact Hk.
  - bulk_by_loop Hv (@proj1) SmartNixieTube.set_red
      (SmartNixieTube.with_red v) (@red P). exact Hk.
  - bulk_by_loop Hv (@proj1) SmartNixieTube.set_green
      (SmartNixieTube.with_green v) (@green P). exact Hk.
  - bulk_by_loop Hv (@proj1) SmartNixieTube.set_blue
      (SmartNixieTube.with_blue v) (@blue P). exact Hk.
Qed.

(** X21: with the count above the number of tubes owned, a bulk setter
    given a value in 0..255 raises [IndexError], after it has stored the
    value at display level and overwritten the field of every tube. *)
Theorem bulk_setters_run_past_the_tubes d (v : Z) :
  byte_range v ->
  (length (tubes d) < Z.to_nat (number_of_tubes_in_display d))%nat ->
  SmartNixieTubeDisplay.set_brightness v d
  = (Raise (IndexError "list index out of range"),
     with_tubes (SmartNixieTube.with_brightness v <$> tubes d)
       (with_brightness v d))
  /\
  SmartNixieTubeDisplay.set_red v d
  = (Raise (IndexError "list index out of range"),
     with_tubes (SmartNixieTube.with_red v <$> tubes d) (with_red v d))
  /\
  SmartNixieTubeDisplay.set_green v d
  = (Raise (IndexError "list index out of range"),
     with_tubes (SmartNixieTube.with_green v <$> tubes d) (with_green v d))
  /\
  SmartNixieTubeDisplay.set_blue v d
  = (Raise (IndexError "list index out of range"),
     with_tubes (SmartNixieTube.with_blue v <$> tubes d) (with_blue v d)).
Proof.
  intros Hv Hk.
  unfold SmartNixieTubeDisplay.set_brightness, SmartNixieTubeDisplay.set_red,
    SmartNixieTubeDisplay.set_green, SmartNixieTubeDisplay.set_blue.
  split; [|split; [|split]].
  - bulk_by_loop Hv (@proj2) SmartNixieTube.set_brightness
      (SmartNixieTube.with_brightness v) (@brightness P). exact Hk.
  - bulk_by_loop Hv (@proj2) SmartNixieTube.set_red
      (SmartNixieTube.with_red v) (@red P). exact Hk.
  - bulk_by_loop Hv (@proj2) SmartNixieTube.set_green
      (SmartNixieTube.with_green v) (@green P). exact Hk.
  - bulk_by_loop Hv (@proj2) SmartNixieTube.set_blue
      (SmartNixieTube.with_blue v) (@blue P). exact Hk.
Qed.

End Bounds.

Lemma bulk_setters_rewrite_first_tubes_witness :
  SmartNixieTube.brightness
    <$> tubes (snd (SmartNixieTubeDisplay.set_brightness 9
                      (with_number_of_tubes_in_display 2 (fresh 3))))
  = [9; 9; 0]
  /\ SmartNixieTube.red
       <$> tubes (snd (SmartNixieTubeDisplay.set_red 9
                         (with_number_of_tubes_in_display 2 (fresh 3))))
     = [9; 9; 0]
  /\ SmartNixieTube.green
       <$> tubes (snd (SmartNixieTubeDisplay.set_green 9
                         (with_number_of_tubes_in_display 2 (fresh 3))))
     = [9; 9; 0]
  /\ SmartNixieTube.blue
       <$> tubes (snd (SmartNixieTubeDisplay.set_blue 9
                         (with_number_of_tubes_in_display 2 (fresh 3))))
     = [9; 9; 0].
Proof.
  assert (H9 : byte_range 9) by (unfold byte_range; lia).
  destruct (bulk_setters_rewrite_first_tubes
              (with_number_of_tubes_in_display 2 (fresh 3)) 9 H9
              ltac:(cbn; lia)) as (Hb & Hr & Hg & Hbl).
  rewrite Hb, Hr, Hg, Hbl. split; [|split; [|split]]; reflexivity.
Defined.

Lemma bulk_setters_run_past_the_tubes_witness :
  SmartNixieTubeDisplay.set_red 9 (with_number_of_tubes_in_display 5 (fresh 3))
  = (Raise (IndexError "list index out of range"),
     with_tubes (SmartNixieTube.with_red 9 <$> tubes (fresh 3))
       (with_red 9 (with_number_of_tubes_in_display 5 (fresh 3))))
  /\ (let after := snd (SmartNixieTubeDisplay.set_brightness 9
                          (with_number_of_tubes_in_display 5 (fresh 3))) in
      brightness after = 9 /\
      SmartNixieTube.brightness <$> tubes after = [9; 9; 9])
  /\ (let after := snd (SmartNixieTubeDisplay.set_red 9
                          (with_number_of_tubes_in_display 5 (fresh 3))) in
      red after = 9 /\ SmartNixieTube.red <$> tubes after = [9; 9; 9])
  /\ (let after := snd (SmartNixieTubeDisplay.set_green 9
                          (with_number_of_tubes_in_display 5 (fresh 3))) in
      green after = 9 /\ SmartNixieTube.green <$> tubes after = [9; 9; 9])
  /\ (let after := snd (SmartNixieTubeDisplay.set_blue 9
                          (with_number_of_tubes_in_display 5 (fresh 3))) in
      blue after = 9 /\ SmartNixieTube.blue <$> tubes after = [9; 9; 9]).
Proof.
  assert (H9 : byte_range 9) by (unfold byte_range; lia).
  destruct (bulk_setters_run_past_the_tubes
              (with_number_of_tubes_in_display 5 (fresh 3)) 9 H9
              ltac:(cbn; lia)) as (Hb & Hr & Hg & Hbl).
  split; [exact Hr|].
  rewrite Hb, Hr, Hg, Hbl. repeat split.
Defined.

(** X22: [reset] never raises and changes nothing but the tubes: the
    display-level brightness, red, green and blue keep the values last set,
    so they can differ from those of the tubes afterwards. *)
Theorem reset_changes_tubes_only {P} `{SerialPort P}
    (d : SmartNixieTubeDisplay.t P) :
  fst (SmartNixieTubeDisplay.reset d) = Ok tt /\
  with_tubes (tubes d) (snd (SmartNixieTubeDisplay.reset d)) = d /\
  length (tubes (snd (SmartNixieTubeDisplay.reset d))) = length (tubes d).
Proof.
  rewrite reset_result. cbn [fst snd tubes with_tubes].
  split; [reflexivity | split; [now destruct d | apply length_fmap]].
Qed.

Example reset_after_bulk_set :
  let d := snd (SmartNixieTubeDisplay.reset
                  (snd (SmartNixieTubeDisplay.set_brightness 200 (fresh 2)))) in
  brightness d = 200 /\ SmartNixieTube.brightness <$> tubes d = [0; 0].
Proof. split; reflexivity. Qed.

(** ** The digit setter on one character *)

Lemma digit_chars_low (c : ascii) : c ∈ digit_chars -> (nat_of_ascii c < 128)%nat.
Proof.
  unfold digit_chars. cbn [list_ascii_of_string].
  rewrite !elem_of_cons, elem_of_nil.
  intros Hc.
  repeat (destruct Hc as [-> | Hc]; [apply Nat.ltb_lt; reflexivity|]).
  destruct Hc.
Qed.

Lemma substring_first_byte (b : ascii) (rest : string) :
  str_in (String b rest) "-0123456789" = true -> b ∈ digit_chars.
Proof.
  intros Hin. apply str_in_spec in Hin as (pre & post & Heq).
  apply (f_equal list_ascii_of_string) in Heq.
  rewrite !list_ascii_append in Heq.
  assert (Hb : b ∈ list_ascii_of_string "-0123456789").
  { rewrite Heq. apply elem_of_app. right. apply elem_of_app. left.
    cbn [list_ascii_of_string]. apply elem_of_cons. now left. }
  unfold digit_chars. cbn [list_ascii_of_string] in Hb |- *.
  rewrite !elem_of_cons, elem_of_nil in Hb |- *. tauto.
Qed.

(** On one character, the substring test is the test for a digit
    character. *)
Lemma one_character_passes (value : string) :
  one_character value ->
  str_in value "-0123456789" = true <-> digit_character value.
Proof.
  intros [[c ->] | [Hne Hhigh]]; unfold digit_character.
  - rewrite one_character_test, bool_decide_eq_true. split.
    + intros Hc. now exists c.
    + intros [c' [Hc' Heq]]. now injection Heq as ->.
  - destruct value as [|b rest]; [congruence|].
    apply Forall_cons in Hhigh as [Hb _]. split.
    + intros Hin. apply substring_first_byte, digit_chars_low in Hin. lia.
    + intros [c [Hc Heq]]. injection Heq as -> _.
      apply digit_chars_low in Hc. lia.
Qed.

(** C8: setting the digit to one character never raises; the digit then
    read from the tube is that character if it is one of [0123456789-] and
    ["-"] for every other character; the other six attributes read as
    before. *)
Theorem set_digit_one_character (value : string) (u : SmartNixieTube.t) :
  one_character value ->
  fst (SmartNixieTube.set_digit value u) = Ok tt /\
  (digit_character value ->
   SmartNixieTube.digit (snd (SmartNixieTube.set_digit value u)) = value) /\
  (~ digit_character value ->
   SmartNixieTube.digit (snd (SmartNixieTube.set_digit value u)) = "-") /\
  SmartNixieTube.left_decimal_point (snd (SmartNixieTube.set_digit value u))
  = SmartNixieTube.left_decimal_point u /\
  SmartNixieTube.right_decimal_point (snd (SmartNixieTube.set_digit value u))
  = SmartNixieTube.right_decimal_point u /\
  SmartNixieTube.brightness (snd (SmartNixieTube.set_digit value u))
  = SmartNixieTube.brightness u /\
  SmartNixieTube.red (snd (SmartNixieTube.set_digit value u))
  = SmartNixieTube.red u /\
  SmartNixieTube.green (snd (SmartNixieTube.set_digit value u))
  = SmartNixieTube.green u /\
  SmartNixieTube.blue (snd (SmartNixieTube.set_digit value u))
  = SmartNixieTube.blue u.
Proof.
  intros Hone. apply one_character_passes in Hone.
  unfold SmartNixieTube.set_digit.
  destruct (str_in value "-0123456789"); cbn.
  - split; [reflexivity|]. split; [reflexivity|]. split.
    + intros Hnot. exfalso. apply Hnot, Hone. reflexivity.
    + repeat split.
  - split; [reflexivity|]. split.
    + intros Hd. apply Hone in Hd. discriminate Hd.
    + repeat split.
Qed.

Lemma set_digit_one_character_witness :
  SmartNixieTube.digit
    (snd (SmartNixieTube.set_digit "7" SmartNixieTube.default)) = "7"
  /\ SmartNixieTube.digit
       (snd (SmartNixieTube.set_digit "x"
               (SmartNixieTube.mk "5" true false 1 2 3 4))) = "-"
  /\ SmartNixieTube.digit
       (snd (SmartNixieTube.set_digit "é"
               (SmartNixieTube.mk "5" true false 1 2 3 4))) = "-".
Proof.
  split; [|split].
  - apply (set_digit_one_character "7" SmartNixieTube.default).
    + left. now exists "7"%char.
    + exists "7"%char. split; [|reflexivity].
      unfold digit_chars. cbn. rewrite !elem_of_cons. tauto.
  - apply (set_digit_one_character "x" (SmartNixieTube.mk "5" true false 1 2 3 4)).
    + left. now exists "x"%char.
    + intros [c [Hc Heq]]. injection Heq as <-.
      unfold digit_chars in Hc. cbn [list_ascii_of_string] in Hc.
      rewrite !elem_of_cons, elem_of_nil in Hc.
      repeat (destruct Hc as [Hc | Hc]; [discriminate Hc|]). destruct Hc.
  - apply (set_digit_one_character "é" (SmartNixieTube.mk "5" true false 1 2 3 4)).
    + right. split; [discriminate|]. repeat constructor; cbn; lia.
    + intros [c [Hc Heq]]. discriminate Heq.
Defined.
